(** * The data-access layer of the fairness dashboard (src/lib/api.ts)

    A shallow embedding of the request executor ([apiRequest],
    [apiFormRequest]), of the endpoint catalog built on it and of the
    dashboard's aggregation ([fetchDashboardData] in src/pages/Dashboard.tsx),
    together with the part of the JavaScript platform the code observes:
    JSON values, truthiness, string conversion, thrown values, [fetch] with an
    abort signal and [Promise.all]. *)

From Stdlib Require Import ZArith String Ascii List Bool Lia.
Import ListNotations.

#[local] Set Warnings "-register-all".

Open Scope string_scope.
Open Scope Z_scope.

(** ** Strings and integer numerals *)

Module Str.

(** [s.includes(sub)] *)
Fixpoint includes (s sub : string) : bool :=
  String.prefix sub s
  || match s with
     | EmptyString => false
     | String _ rest => includes rest sub
     end.

(** [parts.join(sep)] *)
Fixpoint join (sep : string) (parts : list string) : string :=
  match parts with
  | [] => ""
  | [p] => p
  | p :: rest => p ++ sep ++ join sep rest
  end.

Definition digit (d : Z) : ascii := ascii_of_nat (48 + Z.to_nat d).

(** The decimal digits of a non-negative integer, most significant first;
    [fuel] bounds the number of digits. *)
Fixpoint digits_from (fuel : nat) (n : Z) : string :=
  match fuel with
  | O => ""
  | S fuel' =>
      if n <? 10 then String (digit n) ""
      else digits_from fuel' (n / 10) ++ String (digit (n mod 10)) ""
  end.

Definition digits (n : Z) : string := digits_from (S (Z.to_nat (Z.log2 n))) n.

(** The decimal numeral of an integer: no leading zero, [-] for negatives. *)
Definition decimal (n : Z) : string :=
  if n <? 0 then "-" ++ digits (- n) else digits n.

Fixpoint zeros (k : nat) : string :=
  match k with
  | O => ""
  | S k' => String "0" (zeros k')
  end.

End Str.

(** ** Number::toString on integer-valued Numbers

    A Number is an IEEE 754 binary64 value.  The integer-valued ones are
    modelled by the integer they denote; [F64.of_Z] is the Number value of a
    mathematical integer (round to nearest, ties to even, 53 significant
    bits), and [F64.toString] is ECMAScript's Number::toString in radix 10:
    the shortest digit string [s] (with [k] digits and decimal exponent [n])
    whose Number value is the given one, printed positionally while
    [n <= 21] and in exponent form above. *)

Module F64.

Definition overflow : Z := 2 ^ 1024.

(** Round a non-negative integer to 53 significant bits. *)
Definition of_Z (v : Z) : Z :=
  let e := Z.log2 v - 52 in
  if e <=? 0 then v
  else
    let q := Z.shiftr v e in
    let r := v - Z.shiftl q e in
    let half := Z.shiftl 1 (e - 1) in
    let q' := if (half <? r) || ((r =? half) && Z.odd q) then q + 1 else q in
    Z.shiftl q' e.

(** Number of decimal digits of a positive integer. *)
Definition ndigits (x : Z) : Z := Z.of_nat (String.length (Str.digits x)).

(** The [k]-digit significands [s] with [of_Z (s * 10^(n-k)) = x]. *)
Definition candidates (x n k : Z) : list (Z * Z) :=
  if n <? k then []
  else
    let p := 10 ^ (n - k) in
    map (fun s => (s, n))
      (filter
         (fun s => (10 ^ (k - 1) <=? s) && (s <? 10 ^ k) && (of_Z (s * p) =? x))
         [x / p; x / p + 1]).

(** Among several significands the one closest to [x] is taken, the even one
    on a tie. *)
Definition closer (x k : Z) (a b : Z * Z) : Z * Z :=
  let da := Z.abs (fst a * 10 ^ (snd a - k) - x) in
  let db := Z.abs (fst b * 10 ^ (snd b - k) - x) in
  if da <? db then a
  else if db <? da then b
  else if Z.even (fst a) then a else b.

Definition best (x k : Z) (cs : list (Z * Z)) : option (Z * Z) :=
  match cs with
  | [] => None
  | c :: rest => Some (fold_left (closer x k) rest c)
  end.

(** Smallest [k] first; returns [(s, n, k)]. *)
Fixpoint shortest (fuel : nat) (x d k : Z) : Z * Z * Z :=
  match fuel with
  | O => (x, d, d)
  | S fuel' =>
      match best x k (candidates x d k ++ candidates x (d + 1) k) with
      | Some (s, n) => (s, n, k)
      | None => shortest fuel' x d (k + 1)
      end
  end.

Definition toString_pos (x : Z) : string :=
  let d := ndigits x in
  let '(s, n, k) := shortest (Z.to_nat d) x d 1 in
  let ds := Str.digits s in
  if n <=? 21 then ds ++ Str.zeros (Z.to_nat (n - k))
  else
    match ds with
    | String c "" => String c "" ++ "e+" ++ Str.decimal (n - 1)
    | String c rest => String c "" ++ "." ++ rest ++ "e+" ++ Str.decimal (n - 1)
    | EmptyString => ""
    end.

(** [(n).toString()] for the Number value of the integer [n]. *)
Definition toString (n : Z) : string :=
  let x := of_Z (Z.abs n) in
  if x =? 0 then "0"
  else if overflow <=? x then (if n <? 0 then "-Infinity" else "Infinity")
  else if n <? 0 then "-" ++ toString_pos x
  else toString_pos x.

Definition MAX_SAFE_INTEGER : Z := 2 ^ 53 - 1.

End F64.

(** ** The JavaScript platform, as far as the code observes it *)

(** An [Error] or [DOMException] raised by the platform.  [stack] stands for
    whatever else the object carries; the code never reads it. *)
Module Error.

Record t := { name : string; message : string; stack : string }.

End Error.

(** Completion of a platform operation that can only fail with a platform
    error. *)
Inductive completion (A : Type) : Type :=
| Done (a : A)
| Fails (e : Error.t).

Arguments Done {A} a.
Arguments Fails {A} e.

(** A [Blob] and a [File] are opaque byte containers. *)
Definition Blob : Type := list Byte.byte.

Record File := { filename : string; bytes : Blob }.

(** The [Response] a [fetch] resolves with.  [json] and [blob] are what the
    methods of the same name settle with when the body is read: [json]
    fails with a SyntaxError when the body is not valid JSON. *)
Module Response.

Record t (J : Type) := {
  status : Z;
  statusText : string;
  json : completion J;
  blob : completion Blob
}.

Arguments status {J} _.
Arguments statusText {J} _.
Arguments json {J} _.
Arguments blob {J} _.

(** [response.ok]: the status is in the range 200-299. *)
Definition ok {J} (r : t J) : bool := (200 <=? status r) && (status r <=? 299).

End Response.

(** [FormData]: the entries in the order they were appended. *)
Inductive FormDataEntryValue : Type :=
| FileEntry (f : File)
| StringEntry (s : string).

Module FormData.

Definition t : Type := list (string * FormDataEntryValue).

(** [new FormData()] *)
Definition new : t := [].

(** [formData.append(name, value)] *)
Definition append (formData : t) (name : string) (v : FormDataEntryValue) : t :=
  (formData ++ [(name, v)])%list.

End FormData.

(** What [fetch] sends. *)
Record Request := {
  url : string;
  method : string;
  headers : list (string * string);
  body : option FormData.t
}.

(** What varies between engines, browsers and builds.  JSON numbers are
    binary64 values; the code only tests them for truthiness and converts
    them to strings, so their type stays abstract. *)
Class Runtime := {
  number : Type;
  (** the Number value of an integer literal *)
  number_of_Z : Z -> number;
  (** ToBoolean on a Number: false on [0], [-0] and [NaN] *)
  number_ToBoolean : number -> bool;
  (** Number::toString *)
  number_toString : number -> string;
  (** message of the TypeError raised by reading property [p] of [null] *)
  null_read_message : string -> string;
  (** message of the TypeError raised when an object has no primitive value *)
  to_primitive_message : string;
  (** message of the DOMException with which an aborted [fetch] rejects *)
  abort_message : string;
  (** [import.meta.env.VITE_API_BASE_URL], [None] when unset *)
  VITE_API_BASE_URL : option string
}.

Section Platform.

Context {rt : Runtime}.

(** A value decoded by [JSON.parse]; an object is the list of its own
    properties, each key once. *)
Inductive json : Type :=
| JNull
| JBool (b : bool)
| JNum (n : number)
| JStr (s : string)
| JArr (items : list json)
| JObj (props : list (string * json)).

(** A JavaScript value of the kinds met here: [None] is [undefined]. *)
Definition value : Type := option json.

Definition TypeError (msg : string) : Error.t :=
  {| Error.name := "TypeError"; Error.message := msg; Error.stack := "" |}.

Definition AbortError : Error.t :=
  {| Error.name := "AbortError"; Error.message := abort_message;
     Error.stack := "" |}.

Definition SyntaxError (msg : string) : Error.t :=
  {| Error.name := "SyntaxError"; Error.message := msg; Error.stack := "" |}.

Fixpoint assoc (key : string) (props : list (string * json)) : value :=
  match props with
  | [] => None
  | (k, v) :: rest => if String.eqb k key then Some v else assoc key rest
  end.

(** [o.p] for a decoded value [o]: reading a property of [null] throws,
    an object answers with its own property, and every other value (and an
    object without the property) has none: the names read here are on no
    prototype. *)
Definition get (o : json) (p : string) : completion value :=
  match o with
  | JNull => Fails (TypeError (null_read_message p))
  | JObj props => Done (assoc p props)
  | _ => Done None
  end.

Definition ToBoolean (v : value) : bool :=
  match v with
  | None => false
  | Some JNull => false
  | Some (JBool b) => b
  | Some (JNum n) => number_ToBoolean n
  | Some (JStr s) => negb (String.eqb s "")
  | Some (JArr _) => true
  | Some (JObj _) => true
  end.

Definition has_own (key : string) (props : list (string * json)) : bool :=
  match assoc key props with Some _ => true | None => false end.

(** ToString.  An array joins the strings of its elements with commas,
    [null] elements giving the empty string.  A decoded object has no
    callable property of its own: when it has an own [toString] the methods
    tried by OrdinaryToPrimitive yield no primitive and a TypeError is
    thrown, otherwise Object.prototype.toString answers. *)
Fixpoint ToString (v : json) : completion string :=
  match v with
  | JNull => Done "null"
  | JBool true => Done "true"
  | JBool false => Done "false"
  | JNum n => Done (number_toString n)
  | JStr s => Done s
  | JArr items =>
      (fix elements (l : list json) (acc : list string) : completion string :=
         match l with
         | [] => Done (Str.join "," (rev acc))
         | JNull :: rest => elements rest ("" :: acc)
         | item :: rest =>
             match ToString item with
             | Done s => elements rest (s :: acc)
             | Fails e => Fails e
             end
         end) items []
  | JObj props =>
      if has_own "toString" props then Fails (TypeError to_primitive_message)
      else Done "[object Object]"
  end.

(** [a || b] *)
Definition logical_or (a b : value) : value := if ToBoolean a then a else b.

(** The network's answer to a request: a response whose head arrives
    [at_ms] milliseconds after the call, or a failure before any response. *)
Inductive network_event : Type :=
| Responds (at_ms : Z) (response : Response.t json)
| Breaks (at_ms : Z) (e : Error.t).

Definition Network : Type := Request -> network_event.

Definition arrival (ev : network_event) : Z :=
  match ev with
  | Responds at_ms _ => at_ms
  | Breaks at_ms _ => at_ms
  end.

(** An [AbortSignal]: the time at which its controller aborts, if ever. *)
Definition AbortSignal : Type := option Z.

(** [fetch(url, init)]: settles with what the network answers, unless the
    signal aborts first, which rejects it with an AbortError.  An answer due
    at the very instant of the abort is taken to lose the race. *)
Definition fetch (net : Network) (request : Request) (signal : AbortSignal)
  : completion (Response.t json) :=
  let aborted at_ms :=
    match signal with
    | Some deadline => deadline <=? at_ms
    | None => false
    end in
  match net request with
  | Responds at_ms response =>
      if aborted at_ms then Fails AbortError else Done response
  | Breaks at_ms e =>
      if aborted at_ms then Fails AbortError else Fails e
  end.

End Platform.

(** Chrome (V8), with JSON numbers restricted to integer values. *)
#[export] Instance chrome : Runtime := {|
  number := Z;
  number_of_Z := fun n => n;
  number_ToBoolean := fun n => negb (n =? 0);
  number_toString := F64.toString;
  null_read_message := fun p =>
    "Cannot read properties of null (reading '" ++ p ++ "')";
  to_primitive_message := "Cannot convert object to primitive value";
  abort_message := "signal is aborted without reason";
  VITE_API_BASE_URL := None
|}.

(** ** src/lib/api.ts *)

Section Api.

Context {rt : Runtime}.

(** [import.meta.env.VITE_API_BASE_URL || 'http://localhost:8000'] *)
Definition API_BASE_URL : string :=
  match VITE_API_BASE_URL with
  | Some configured =>
      if String.eqb configured "" then "http://localhost:8000" else configured
  | None => "http://localhost:8000"
  end.

(** [class ApiError extends Error]: [message] is set by [super(message)],
    [status] and [response] are the public constructor parameters; the
    [name] is always ['ApiError']. *)
Record ApiError := { message : string; status : Z; response : value }.

(** [new ApiError(message, status, response)].  The Error constructor
    converts a message that is not [undefined] with ToString, which can
    throw. *)
Definition new_ApiError (message : value) (status : Z) (response : value)
  : completion ApiError :=
  match message with
  | None => Done {| message := ""; status := status; response := response |}
  | Some v =>
      match ToString v with
      | Done text =>
          Done {| message := text; status := status; response := response |}
      | Fails e => Fails e
      end
  end.

(** What a [throw] carries: an [ApiError] ([error instanceof ApiError]) or a
    platform error. *)
Inductive thrown : Type :=
| ThrowApiError (e : ApiError)
| ThrowError (e : Error.t).

(** How an [async] function settles.  The spec's [Success(payload)] is
    [Fulfilled payload], its [Failure(e)] is [Rejected (ThrowApiError e)]. *)
Inductive promise (A : Type) : Type :=
| Fulfilled (a : A)
| Rejected (t : thrown).

Arguments Fulfilled {A} a.
Arguments Rejected {A} t.

Definition await {A} (c : completion A) : promise A :=
  match c with
  | Done a => Fulfilled a
  | Fails e => Rejected (ThrowError e)
  end.

Definition bind {A B} (p : promise A) (k : A -> promise B) : promise B :=
  match p with
  | Fulfilled a => k a
  | Rejected t => Rejected t
  end.

Notation "x <- p ;; k" := (bind p (fun x => k))
  (at level 61, p at next level, right associativity).

(** [try { body } catch (error) { handler }] *)
Definition try_catch {A} (body : promise A) (handler : thrown -> promise A)
  : promise A :=
  match body with
  | Fulfilled a => Fulfilled a
  | Rejected error => handler error
  end.

(** [throw new ApiError(message, status, response)] *)
Definition throw_new_ApiError {A} (message : value) (status : Z)
  (response : value) : promise A :=
  e <- await (new_ApiError message status response) ;;
  Rejected (ThrowApiError e).

(** [response.json().catch(() => ({}))] *)
Definition json_or_empty (response : Response.t json) : json :=
  match Response.json response with
  | Done parsed => parsed
  | Fails _ => JObj []
  end.

(** The template literal [`HTTP ${response.status}: ${response.statusText}`] *)
Definition http_status_line (response : Response.t json) : string :=
  "HTTP " ++ F64.toString (Response.status response) ++ ": "
  ++ Response.statusText response.

Record RequestInit := {
  init_method : option string;
  init_headers : list (string * string);
  init_body : option FormData.t
}.

Definition no_options : RequestInit :=
  {| init_method := None; init_headers := []; init_body := None |}.

Definition method_or_GET (m : option string) : string :=
  match m with Some m => m | None => "GET" end.

Definition json_request (endpoint : string) (options : RequestInit) : Request :=
  {| url := API_BASE_URL ++ endpoint;
     method := method_or_GET (init_method options);
     headers := ("Content-Type", "application/json") :: init_headers options;
     body := init_body options |}.

Definition form_request (endpoint : string) (formData : FormData.t) : Request :=
  {| url := API_BASE_URL ++ endpoint;
     method := "POST";
     headers := [];
     body := Some formData |}.

(** The [catch (error)] clause of [apiRequest]. *)
Definition apiRequest_catch {A} (error : thrown) : promise A :=
  match error with
  | ThrowApiError e => Rejected (ThrowApiError e)
  | ThrowError err =>
      if String.eqb (Error.name err) "AbortError" then
        throw_new_ApiError
          (Some (JStr "Request timeout - server may be unavailable")) 0 None
      else if String.eqb (Error.name err) "TypeError"
              && Str.includes (Error.message err) "fetch" then
        throw_new_ApiError
          (Some (JStr "Network error - cannot connect to server")) 0 None
      else
        throw_new_ApiError
          (Some (JStr "Network error or server unavailable")) 0 None
  end.

(** [apiRequest<T>(endpoint, options = {})].  The timer set before [fetch]
    makes the controller's signal abort 10000 ms after the call; it is
    cleared once [fetch] has resolved, so reading the body has no deadline. *)
Definition apiRequest (net : Network) (endpoint : string) (options : RequestInit)
  : promise json :=
  try_catch
    (let signal := Some 10000 in
     response <- await (fetch net (json_request endpoint options) signal) ;;
     if negb (Response.ok response) then
       let errorData := json_or_empty response in
       field <- await (get errorData "message") ;;
       throw_new_ApiError
         (logical_or field (Some (JStr (http_status_line response))))
         (Response.status response)
         (Some errorData)
     else
       await (Response.json response))
    apiRequest_catch.

(** The [catch (error)] clause of [apiFormRequest]. *)
Definition apiFormRequest_catch {A} (error : thrown) : promise A :=
  match error with
  | ThrowApiError e => Rejected (ThrowApiError e)
  | ThrowError err =>
      if String.eqb (Error.name err) "AbortError" then
        throw_new_ApiError
          (Some (JStr "Request timeout - server may be unavailable")) 0 None
      else if String.eqb (Error.name err) "TypeError"
              && Str.includes (Error.message err) "fetch" then
        throw_new_ApiError
          (Some (JStr "Network error - cannot connect to server")) 0 None
      else
        throw_new_ApiError
          (Some (JStr "Network error or server unavailable")) 0 None
  end.

(** [apiFormRequest<T>(endpoint, formData)]: the same with a POST of the
    form, no header of its own and 30000 ms. *)
Definition apiFormRequest (net : Network) (endpoint : string) (formData : FormData.t)
  : promise json :=
  try_catch
    (let signal := Some 30000 in
     response <- await (fetch net (form_request endpoint formData) signal) ;;
     if negb (Response.ok response) then
       let errorData := json_or_empty response in
       field <- await (get errorData "message") ;;
       throw_new_ApiError
         (logical_or field (Some (JStr (http_status_line response))))
         (Response.status response)
         (Some errorData)
     else
       await (Response.json response))
    apiFormRequest_catch.

(** [dashboardApi] *)
Definition getSummary (net : Network) : promise json :=
  apiRequest net "/api/v1/dashboard/summary" no_options.

Definition getModelRisk (net : Network) : promise json :=
  apiRequest net "/api/v1/dashboard/model_risk" no_options.

Definition getComplianceTrend (net : Network) : promise json :=
  apiRequest net "/api/v1/dashboard/compliance_trend" no_options.

(** [biasDetectionApi.detect]: the form it builds, then the call. *)
Definition detect_formData (file : File)
  (modelName modelVersion targetVariable sensitiveAttribute
   privilegedGroup unprivilegedGroup : string) : FormData.t :=
  let formData := FormData.new in
  let formData := FormData.append formData "file" (FileEntry file) in
  let formData := FormData.append formData "model_name" (StringEntry modelName) in
  let formData :=
    FormData.append formData "model_version" (StringEntry modelVersion) in
  let formData :=
    FormData.append formData "target_variable" (StringEntry targetVariable) in
  let formData :=
    FormData.append formData "sensitive_attribute" (StringEntry sensitiveAttribute) in
  let formData :=
    FormData.append formData "privileged_group" (StringEntry privilegedGroup) in
  let formData :=
    FormData.append formData "unprivileged_group" (StringEntry unprivilegedGroup) in
  formData.

Definition detect (net : Network) (file : File)
  (modelName modelVersion targetVariable sensitiveAttribute
   privilegedGroup unprivilegedGroup : string) : promise json :=
  apiFormRequest net "/api/v1/bias/detect"
    (detect_formData file modelName modelVersion targetVariable
       sensitiveAttribute privilegedGroup unprivilegedGroup).

(** [explainabilityApi.explain] *)
Definition explain_formData (file : File)
  (modelName modelVersion targetVariable sensitiveAttribute : string)
  (instanceIndex : number) (role : string) : FormData.t :=
  let formData := FormData.new in
  let formData := FormData.append formData "file" (FileEntry file) in
  let formData := FormData.append formData "model_name" (StringEntry modelName) in
  let formData :=
    FormData.append formData "model_version" (StringEntry modelVersion) in
  let formData :=
    FormData.append formData "target_variable" (StringEntry targetVariable) in
  let formData :=
    FormData.append formData "sensitive_attribute" (StringEntry sensitiveAttribute) in
  let formData :=
    FormData.append formData "instance_index"
      (StringEntry (number_toString instanceIndex)) in
  let formData := FormData.append formData "role" (StringEntry role) in
  formData.

Definition explain (net : Network) (file : File)
  (modelName modelVersion targetVariable sensitiveAttribute : string)
  (instanceIndex : number) (role : string) : promise json :=
  apiFormRequest net "/api/v1/explain"
    (explain_formData file modelName modelVersion targetVariable
       sensitiveAttribute instanceIndex role).

(** [complianceApi.generateReport]: the form it builds, then the call.
    [role] is [None] when the argument is left out, and then defaults to
    ['executive']. *)
Definition generateReport_formData (file : File)
  (modelName modelVersion targetVariable sensitiveAttribute
   privilegedGroup unprivilegedGroup : string) (role : option string) : FormData.t :=
  let role := match role with Some r => r | None => "executive" end in
  let formData := FormData.new in
  let formData := FormData.append formData "file" (FileEntry file) in
  let formData := FormData.append formData "model_name" (StringEntry modelName) in
  let formData :=
    FormData.append formData "model_version" (StringEntry modelVersion) in
  let formData :=
    FormData.append formData "target_variable" (StringEntry targetVariable) in
  let formData :=
    FormData.append formData "sensitive_attribute" (StringEntry sensitiveAttribute) in
  let formData :=
    FormData.append formData "privileged_group" (StringEntry privilegedGroup) in
  let formData :=
    FormData.append formData "unprivileged_group" (StringEntry unprivilegedGroup) in
  let formData := FormData.append formData "role" (StringEntry role) in
  formData.

(** The function calls [fetch] itself, with no signal and outside any
    [try], and returns the body of a success response as a blob. *)
Definition generateReport (net : Network) (file : File)
  (modelName modelVersion targetVariable sensitiveAttribute
   privilegedGroup unprivilegedGroup : string) (role : option string)
  : promise Blob :=
  let formData :=
    generateReport_formData file modelName modelVersion targetVariable
      sensitiveAttribute privilegedGroup unprivilegedGroup role in
  response <-
    await (fetch net (form_request "/api/v1/compliance/generate" formData) None) ;;
  if negb (Response.ok response) then
    let errorData := json_or_empty response in
    field <- await (get errorData "message") ;;
    throw_new_ApiError
      (logical_or field (Some (JStr (http_status_line response))))
      (Response.status response)
      (Some errorData)
  else
    await (Response.blob response).

End Api.

Arguments Fulfilled {rt A} a.
Arguments Rejected {rt A} t.

(** ** src/pages/Dashboard.tsx *)

Section Dashboard.

Context {rt : Runtime}.

(** [Promise.all([p, q])]: fulfilled with both values once both promises are
    fulfilled, rejected with the reason of the first promise to reject.
    [order] says which of the two settles first. *)
Inductive settle_order : Type := FirstSettlesFirst | SecondSettlesFirst.

Definition Promise_all {A B} (order : settle_order)
  (p : promise A) (q : promise B) : promise (A * B) :=
  match p, q with
  | Fulfilled a, Fulfilled b => Fulfilled (a, b)
  | Rejected reason, Fulfilled _ => Rejected reason
  | Fulfilled _, Rejected reason => Rejected reason
  | Rejected reason1, Rejected reason2 =>
      match order with
      | FirstSettlesFirst => Rejected reason1
      | SecondSettlesFirst => Rejected reason2
      end
  end.

Record Toast := { title : string; description : string; variant : string }.

(** The component's state ([useState]) and what it emitted. *)
Record DashboardState := {
  dashboardData : option json;
  modelRisks : json;
  loading : bool;
  toasts : list Toast;
  console : list thrown
}.

Definition initial_state : DashboardState :=
  {| dashboardData := None; modelRisks := JArr []; loading := true;
     toasts := []; console := [] |}.

Definition setLoading (b : bool) (st : DashboardState) : DashboardState :=
  {| dashboardData := dashboardData st; modelRisks := modelRisks st;
     loading := b; toasts := toasts st; console := console st |}.

Definition setDashboardData (d : json) (st : DashboardState) : DashboardState :=
  {| dashboardData := Some d; modelRisks := modelRisks st;
     loading := loading st; toasts := toasts st; console := console st |}.

Definition setModelRisks (r : json) (st : DashboardState) : DashboardState :=
  {| dashboardData := dashboardData st; modelRisks := r;
     loading := loading st; toasts := toasts st; console := console st |}.

Definition toast (t : Toast) (st : DashboardState) : DashboardState :=
  {| dashboardData := dashboardData st; modelRisks := modelRisks st;
     loading := loading st; toasts := (toasts st ++ [t])%list;
     console := console st |}.

Definition console_error (error : thrown) (st : DashboardState) : DashboardState :=
  {| dashboardData := dashboardData st; modelRisks := modelRisks st;
     loading := loading st; toasts := toasts st;
     console := (console st ++ [error])%list |}.

(** [fallbackSummary]; [now] is [new Date().toISOString()]. *)
Definition fallbackSummary (now : string) : json :=
  JObj [ ("timestamp", JStr now);
         ("total_models_audited", JNum (number_of_Z 0));
         ("compliant_models", JNum (number_of_Z 0));
         ("non_compliant_models", JNum (number_of_Z 0));
         ("compliance_rate", JNum (number_of_Z 0));
         ("top_bias_source", JStr "N/A");
         ("most_risky_model", JStr "N/A");
         ("audit_status", JStr "offline");
         ("risk_score", JNum (number_of_Z 0));
         ("last_audit", JStr "N/A");
         ("pending_actions", JNum (number_of_Z 0));
         ("trend", JStr "unknown") ].

(** [fetchDashboardData] *)
Definition fetchDashboardData (net : Network) (order : settle_order)
  (now : string) (st : DashboardState) : DashboardState :=
  let st := setLoading true st in
  let st :=
    match Promise_all order (getSummary net) (getModelRisk net) with
    | Fulfilled (summaryResponse, modelRiskResponse) =>
        let st := setDashboardData summaryResponse st in
        setModelRisks modelRiskResponse st
    | Rejected error =>
        let st := console_error error st in
        let st := setDashboardData (fallbackSummary now) st in
        let st := setModelRisks (JArr []) st in
        let errorMessage :=
          match error with
          | ThrowApiError e => message e
          | ThrowError _ => "Backend API not available - showing offline mode"
          end in
        toast {| title := "API Connection Issue";
                 description := errorMessage;
                 variant := "destructive" |} st
    end in
  setLoading false st.

End Dashboard.

(** ** The error taxonomy *)

Section Taxonomy.

Context {rt : Runtime}.

Definition timeout_error : ApiError :=
  {| message := "Request timeout - server may be unavailable";
     status := 0; response := None |}.

Definition connect_error : ApiError :=
  {| message := "Network error - cannot connect to server";
     status := 0; response := None |}.

Definition unavailable_error : ApiError :=
  {| message := "Network error or server unavailable";
     status := 0; response := None |}.

(** The three transport-level forms. *)
Definition transport_form (e : ApiError) : Prop :=
  e = timeout_error \/ e = connect_error \/ e = unavailable_error.

(** The server-reported form: the status and parsed body of a received
    response. *)
Definition server_form (r : Response.t json) (e : ApiError) : Prop :=
  status e = Response.status r /\ response e = Some (json_or_empty r).

(** The [ApiError] built from a received response [r] and a message. *)
Definition server_error (r : Response.t json) (text : string) : ApiError :=
  {| message := text; status := Response.status r;
     response := Some (json_or_empty r) |}.

(** What the statements after [if (!response.ok)] do with a response [r]:
    the three functions repeat them word for word. *)
Definition report_failure {A} (r : Response.t json) : promise A :=
  match get (json_or_empty r) "message" with
  | Fails e => Rejected (ThrowError e)
  | Done field =>
      match
        new_ApiError (logical_or field (Some (JStr (http_status_line r))))
          (Response.status r) (Some (json_or_empty r))
      with
      | Done e => Rejected (ThrowApiError e)
      | Fails e => Rejected (ThrowError e)
      end
  end.

(** The shape the two executors share: a [try] around one [fetch] armed with
    a deadline, then the status test, and the catch clause. *)
Definition guarded (net : Network) (request : Request) (deadline : Z)
  : promise json :=
  try_catch
    (bind (await (fetch net request (Some deadline)))
       (fun response =>
          if Response.ok response then await (Response.json response)
          else report_failure response))
    apiRequest_catch.

(** Both executors reject with [e] whenever the response [r] reaches them
    [t] ms after the call, within their deadline. *)
Definition executors_reject (r : Response.t json) (t : Z) (e : ApiError) : Prop :=
  (forall net endpoint options,
     net (json_request endpoint options) = Responds t r -> t < 10000 ->
     apiRequest net endpoint options = Rejected (ThrowApiError e))
  /\ (forall net endpoint formData,
        net (form_request endpoint formData) = Responds t r -> t < 30000 ->
        apiFormRequest net endpoint formData = Rejected (ThrowApiError e)).

(** [generateReport] rejects with [e] whenever the response [r] reaches it. *)
Definition generateReport_rejects (r : Response.t json) (t : Z) (e : ApiError)
  : Prop :=
  forall net file modelName modelVersion targetVariable sensitiveAttribute
    privilegedGroup unprivilegedGroup role,
    net (form_request "/api/v1/compliance/generate"
           (generateReport_formData file modelName modelVersion targetVariable
              sensitiveAttribute privilegedGroup unprivilegedGroup role))
    = Responds t r ->
    generateReport net file modelName modelVersion targetVariable
      sensitiveAttribute privilegedGroup unprivilegedGroup role
    = Rejected (ThrowApiError e).

End Taxonomy.

(** ** Sample runs *)

Module Samples.

Definition a_file : File := {| filename := "data.csv"; bytes := [] |}.

Definition response_of (status : Z) (statusText : string)
  (parsed : completion json) : Response.t json :=
  {| Response.status := status; Response.statusText := statusText;
     Response.json := parsed; Response.blob := Done [] |}.

Definition answers (ev : network_event) : Network := fun _ => ev.

Definition summary_body : json :=
  JObj [ ("timestamp", JStr "2025-01-01T00:00:00.000Z");
         ("total_models_audited", JNum 12);
         ("compliant_models", JNum 9) ].

Definition summary_200 : Response.t json :=
  response_of 200 "OK" (Done summary_body).

Definition detect_422 : Response.t json :=
  response_of 422 "Unprocessable Entity"
    (Done (JObj [("message", JStr "missing column")])).


Definition null_body_500 : Response.t json :=
  response_of 500 "Internal Server Error" (Done JNull).


Definition pdf_200 : Response.t json :=
  {| Response.status := 200; Response.statusText := "OK";
     Response.json := Fails (SyntaxError "Unexpected token '%'");
     Response.blob := Done [Byte.x25; Byte.x50; Byte.x44; Byte.x46] |}.

Definition failed_to_fetch : Error.t := TypeError "Failed to fetch".

(** The summary endpoint answers, every other request is refused. *)
Definition only_summary_answers : Network := fun request =>
  if String.eqb (url request) "http://localhost:8000/api/v1/dashboard/summary"
  then Responds 120 summary_200
  else Breaks 300 failed_to_fetch.

Definition failed_to_fetch_again : Error.t :=
  {| Error.name := "TypeError"; Error.message := "Failed to fetch";
     Error.stack := "TypeError: Failed to fetch at apiRequest" |}.

End Samples.

Import Samples.

(** ** More of the platform: string methods, number formatting, scores *)

Module JsString.

Fixpoint drop (n : nat) (s : string) : string :=
  match n, s with
  | O, _ => s
  | S n', String _ rest => drop n' rest
  | S _, EmptyString => EmptyString
  end.

(** [s.replace(pattern, replacement)] for a string pattern and a replacement
    without [$]: only the first occurrence is replaced. *)
Fixpoint replace (s pattern replacement : string) : string :=
  if String.prefix pattern s then
    replacement ++ drop (String.length pattern) s
  else
    match s with
    | EmptyString => EmptyString
    | String c rest => String c (replace rest pattern replacement)
    end.

Definition lower (c : ascii) : ascii :=
  let n := nat_of_ascii c in
  if (65 <=? n)%nat && (n <=? 90)%nat then ascii_of_nat (n + 32) else c.

(** [s.toLowerCase()]: the letters A-Z are mapped to a-z.  Every other
    character is left as it is: none of them has a lower-case form made of
    the characters tested for in this program. *)
Fixpoint toLowerCase (s : string) : string :=
  match s with
  | EmptyString => EmptyString
  | String c rest => String (lower c) (toLowerCase rest)
  end.

(** [s.endsWith(suffix)] *)
Definition endsWith (s suffix : string) : bool :=
  (String.length suffix <=? String.length s)%nat
  && String.eqb (drop (String.length s - String.length suffix) s) suffix.

(** A string is truthy unless it is empty. *)
Definition truthy (s : string) : bool := negb (String.eqb s "").

End JsString.

Module JsNumber.

Fixpoint pad_left (width : nat) (s : string) : string :=
  if (width <=? String.length s)%nat then s
  else
    match width with
    | O => s
    | S w => String "0" (pad_left w s)
    end.

Fixpoint take (n : nat) (s : string) : string :=
  match n, s with
  | O, _ => EmptyString
  | S n', String c rest => String c (take n' rest)
  | S _, EmptyString => EmptyString
  end.

(** [(num / den).toFixed(f)] for a Number whose exact value is the
    non-negative fraction [num / den] below 10^21 (here a byte count divided
    by a power of two, which binary64 holds exactly): the integer [n] with
    [n / 10^f] nearest to the value, the larger one on a tie, printed with
    [f] digits after the point. *)
Definition toFixed (num den : Z) (f : nat) : string :=
  let scale := 10 ^ Z.of_nat f in
  let n := (2 * num * scale + den) / (2 * den) in
  let m := pad_left (S f) (Str.digits n) in
  let k := String.length m in
  match f with
  | O => m
  | _ => take (k - f) m ++ "." ++ JsString.drop (k - f) m
  end.

(** A Number as far as comparisons see it: NaN, an infinity, or the finite
    value [m * 2^e] (every finite binary64 value has this form). *)
Inductive t : Type :=
| NaN
| Infinity (negative : bool)
| Finite (m e : Z).

(** [x <= k] for an integer literal [k]: false on NaN. *)
Definition le_int (x : t) (k : Z) : bool :=
  match x with
  | NaN => false
  | Infinity negative => negative
  | Finite m e =>
      if 0 <=? e then m * 2 ^ e <=? k else m <=? k * 2 ^ (- e)
  end.

(** [x <= y] on two Numbers. *)
Definition le (x y : t) : bool :=
  match x, y with
  | NaN, _ | _, NaN => false
  | Infinity true, _ => true
  | _, Infinity false => true
  | Infinity false, _ => false
  | _, Infinity true => false
  | Finite m1 e1, Finite m2 e2 =>
      let e := Z.min e1 e2 in
      m1 * 2 ^ (e1 - e) <=? m2 * 2 ^ (e2 - e)
  end.

Definition of_Z (k : Z) : t := Finite k 0.

End JsNumber.

(** ** src/components/common/FileUpload.tsx and RiskGauge.tsx *)

(** A toast as the pages other than the dashboard raise them: the variant
    may be left out. *)
Module Notice.

Record t := { title : string; description : string; variant : option string }.

End Notice.

Module FileUpload.

(** [file.size]: the number of bytes. *)
Definition size (file : File) : Z := Z.of_nat (List.length (bytes file)).

(** The component's state, the toasts it raised and the files it handed to
    [onFileSelect], oldest first. *)
Record State := {
  dragActive : bool;
  selectedFile : option File;
  toasts : list Notice.t;
  handed_over : list File
}.

Definition initial : State :=
  {| dragActive := false; selectedFile := None; toasts := [];
     handed_over := [] |}.

Definition toast (n : Notice.t) (st : State) : State :=
  {| dragActive := dragActive st; selectedFile := selectedFile st;
     toasts := (toasts st ++ [n])%list; handed_over := handed_over st |}.

Definition setSelectedFile (f : option File) (st : State) : State :=
  {| dragActive := dragActive st; selectedFile := f;
     toasts := toasts st; handed_over := handed_over st |}.

Definition setDragActive (b : bool) (st : State) : State :=
  {| dragActive := b; selectedFile := selectedFile st;
     toasts := toasts st; handed_over := handed_over st |}.

Definition onFileSelect (f : File) (st : State) : State :=
  {| dragActive := dragActive st; selectedFile := selectedFile st;
     toasts := toasts st; handed_over := (handed_over st ++ [f])%list |}.

(** [handleFileChange(file)]; [maxSize] is the limit in MB, 10 unless the
    parent passes another.  The limit is a whole number of MB here, as in
    every use of the component; on such a limit and on a byte count both the
    product and the comparison of the source are exact. *)
Definition handleFileChange (maxSize : Z) (file : File) (st : State) : State :=
  if maxSize * 1024 * 1024 <? size file then
    toast {| Notice.title := "File too large";
             Notice.description :=
               "File size must be less than " ++ F64.toString maxSize ++ "MB";
             Notice.variant := Some "destructive" |} st
  else if negb (JsString.endsWith (JsString.toLowerCase (filename file)) ".csv")
  then
    toast {| Notice.title := "Invalid file type";
             Notice.description := "Please upload a CSV file";
             Notice.variant := Some "destructive" |} st
  else
    let st := setSelectedFile (Some file) st in
    let st := onFileSelect file st in
    toast {| Notice.title := "File uploaded successfully";
             Notice.description :=
               filename file ++ " ("
               ++ JsNumber.toFixed (size file) (1024 * 1024) 2 ++ "MB)";
             Notice.variant := None |} st.

(** [handleDrag(e)], by the event's type. *)
Definition handleDrag (type : string) (st : State) : State :=
  if String.eqb type "dragenter" || String.eqb type "dragover" then
    setDragActive true st
  else if String.eqb type "dragleave" then setDragActive false st
  else st.

(** [handleDrop(e)] with the dropped files. *)
Definition handleDrop (maxSize : Z) (files : list File) (st : State) : State :=
  let st := setDragActive false st in
  match files with
  | file :: _ => handleFileChange maxSize file st
  | [] => st
  end.

(** [handleInputChange(e)] with the chosen files. *)
Definition handleInputChange (maxSize : Z) (files : list File) (st : State)
  : State :=
  match files with
  | file :: _ => handleFileChange maxSize file st
  | [] => st
  end.

Definition removeFile (st : State) : State := setSelectedFile None st.

(** What the user can do to the component, and a session of such actions. *)
Inductive action : Type :=
| Choose (files : list File)
| Drop (files : list File)
| Drag (type : string)
| Remove.

Definition act (maxSize : Z) (st : State) (a : action) : State :=
  match a with
  | Choose files => handleInputChange maxSize files st
  | Drop files => handleDrop maxSize files st
  | Drag type => handleDrag type st
  | Remove => removeFile st
  end.

Definition session (maxSize : Z) (actions : list action) : State :=
  fold_left (act maxSize) actions initial.

(** The two tests of [handleFileChange]. *)
Definition acceptable (maxSize : Z) (file : File) : bool :=
  (size file <=? maxSize * 1024 * 1024)
  && JsString.endsWith (JsString.toLowerCase (filename file)) ".csv".

End FileUpload.

Module RiskGauge.

Record Risk := { level : string; color : string; bg : string }.

(** [getRiskLevel(score)] *)
Definition getRiskLevel (score : JsNumber.t) : Risk :=
  if JsNumber.le_int score 30 then
    {| level := "Low"; color := "text-success";
       bg := "from-success/20 to-success/5" |}
  else if JsNumber.le_int score 60 then
    {| level := "Medium"; color := "text-warning";
       bg := "from-warning/20 to-warning/5" |}
  else if JsNumber.le_int score 85 then
    {| level := "High"; color := "text-destructive";
       bg := "from-destructive/20 to-destructive/5" |}
  else
    {| level := "Critical"; color := "text-risk-critical";
       bg := "from-risk-critical/20 to-risk-critical/5" |}.

(** The advice under the gauge. *)
Definition advice (score : JsNumber.t) : string :=
  if JsNumber.le_int score 30 then "Models are compliant"
  else if JsNumber.le_int score 60 then "Monitor closely"
  else if JsNumber.le_int score 85 then "Immediate attention needed"
  else "Critical intervention required".

End RiskGauge.

(** ** The pages that call the data-access layer *)

(** [console.log] and [console.error] calls, oldest first. *)
Inductive console_entry {rt : Runtime} : Type :=
| ConsoleLog (label : string) (v : json)
| ConsoleError (label : string) (error : thrown).

(** [a ?? b] *)
Definition nullish_or {rt : Runtime} (a b : value) : value :=
  match a with
  | None | Some JNull => b
  | Some _ => a
  end.

Module DashboardView.

Section View.

Context {rt : Runtime}.

(** [getStatusColor(status)] *)
Definition getStatusColor (status : string) : string :=
  if String.eqb status "COMPLIANT" then "text-success" else "text-destructive".

(** [getRiskColor(score)] *)
Definition getRiskColor (score : JsNumber.t) : string :=
  if JsNumber.le_int score 30 then "text-success"
  else if JsNumber.le_int score 60 then "text-warning"
  else if JsNumber.le_int score 85 then "text-destructive"
  else "text-risk-critical".

(** The two guards the component's body has in front of the page markup,
    [if (loading) return <skeleton>] and [if (!dashboardData) return null]:
    which of the three [return]s the body reaches.  [Markup] only says that
    both guards were passed and the third [return] is evaluated next; the
    markup itself (the table rows, the child components) is not modelled, and
    evaluating it can still throw. *)
Inductive reached : Type := Skeleton | Null | Markup.

Definition guards (st : DashboardState) : reached :=
  if loading st then Skeleton
  else if negb (ToBoolean (dashboardData st)) then Null
  else Markup.

End View.

End DashboardView.

(** src/pages/BiasDetection.tsx *)
Module BiasDetection.

Section Page.

Context {rt : Runtime}.

Record BiasDetectionForm := {
  file : option File;
  model_name : string;
  model_version : string;
  target_variable : string;
  sensitive_attribute : string;
  privileged_group : string;
  unprivileged_group : string
}.

Record State := {
  form : BiasDetectionForm;
  result : json;
  loading : bool;
  toasts : list Notice.t;
  console : list console_entry
}.

Definition empty_form : BiasDetectionForm :=
  {| file := None; model_name := ""; model_version := "";
     target_variable := ""; sensitive_attribute := "";
     privileged_group := ""; unprivileged_group := "" |}.

Definition initial : State :=
  {| form := empty_form; result := JNull; loading := false;
     toasts := []; console := [] |}.

Definition setForm (f : BiasDetectionForm) (st : State) : State :=
  {| form := f; result := result st; loading := loading st;
     toasts := toasts st; console := console st |}.

Definition setResult (r : json) (st : State) : State :=
  {| form := form st; result := r; loading := loading st;
     toasts := toasts st; console := console st |}.

Definition setLoading (b : bool) (st : State) : State :=
  {| form := form st; result := result st; loading := b;
     toasts := toasts st; console := console st |}.

Definition toast (n : Notice.t) (st : State) : State :=
  {| form := form st; result := result st; loading := loading st;
     toasts := (toasts st ++ [n])%list; console := console st |}.

Definition log (entry : console_entry) (st : State) : State :=
  {| form := form st; result := result st; loading := loading st;
     toasts := toasts st; console := (console st ++ [entry])%list |}.

(** [form[field]] for a text field; [None] for any other key. *)
Definition text_field (f : BiasDetectionForm) (field : string) : option string :=
  if String.eqb field "model_name" then Some (model_name f)
  else if String.eqb field "model_version" then Some (model_version f)
  else if String.eqb field "target_variable" then Some (target_variable f)
  else if String.eqb field "sensitive_attribute" then Some (sensitive_attribute f)
  else if String.eqb field "privileged_group" then Some (privileged_group f)
  else if String.eqb field "unprivileged_group" then Some (unprivileged_group f)
  else None.

(** [handleInputChange(field, value)]: [{ ...prev, [field]: value }].  The
    page calls it with the names of its text fields. *)
Definition handleInputChange (field value : string) (st : State) : State :=
  let f := form st in
  let pick name old := if String.eqb field name then value else old in
  setForm
    {| file := file f;
       model_name := pick "model_name" (model_name f);
       model_version := pick "model_version" (model_version f);
       target_variable := pick "target_variable" (target_variable f);
       sensitive_attribute := pick "sensitive_attribute" (sensitive_attribute f);
       privileged_group := pick "privileged_group" (privileged_group f);
       unprivileged_group := pick "unprivileged_group" (unprivileged_group f) |}
    st.

(** [handleFileSelect(file)] *)
Definition handleFileSelect (selected : File) (st : State) : State :=
  let f := form st in
  setForm
    {| file := Some selected;
       model_name := model_name f; model_version := model_version f;
       target_variable := target_variable f;
       sensitive_attribute := sensitive_attribute f;
       privileged_group := privileged_group f;
       unprivileged_group := unprivileged_group f |}
    st.

Definition requiredFields : list string :=
  [ "model_name"; "model_version"; "target_variable"; "sensitive_attribute";
    "privileged_group"; "unprivileged_group" ].

(** The [for] loop of [validateForm]: the first field that is empty stops it
    with a toast. *)
Fixpoint check_fields (fields : list string) (st : State) : bool * State :=
  match fields with
  | [] => (true, st)
  | field :: rest =>
      let filled :=
        match text_field (form st) field with
        | Some text => JsString.truthy text
        | None => false
        end in
      if negb filled then
        (false,
         toast {| Notice.title := "Missing required field";
                  Notice.description :=
                    "Please fill in " ++ JsString.replace field "_" " ";
                  Notice.variant := Some "destructive" |} st)
      else check_fields rest st
  end.

(** [validateForm()] *)
Definition validateForm (st : State) : bool * State :=
  match file (form st) with
  | None =>
      (false,
       toast {| Notice.title := "File required";
                Notice.description := "Please upload a CSV file";
                Notice.variant := Some "destructive" |} st)
  | Some _ => check_fields requiredFields st
  end.

(** Whether [form[field]] is truthy. *)
Definition field_filled (st : State) (field : string) : bool :=
  match text_field (form st) field with
  | Some text => JsString.truthy text
  | None => false
  end.

(** A form that [validateForm] lets through: a file and no empty text
    field. *)
Definition complete (f : BiasDetectionForm) : bool :=
  match file f with Some _ => true | None => false end
  && JsString.truthy (model_name f)
  && JsString.truthy (model_version f)
  && JsString.truthy (target_variable f)
  && JsString.truthy (sensitive_attribute f)
  && JsString.truthy (privileged_group f)
  && JsString.truthy (unprivileged_group f).

(** The [catch] clause of [handleSubmit]. *)
Definition handleSubmit_catch (error : thrown) (st : State) : State :=
  let st := log (ConsoleError "Bias detection API error:" error) st in
  let errorMessage :=
    match error with
    | ThrowApiError e => message e
    | ThrowError _ => "Failed to perform bias detection"
    end in
  toast {| Notice.title := "Analysis failed";
           Notice.description := errorMessage;
           Notice.variant := Some "destructive" |} st.

(** The template literal
    [`Analysis completed for ${result.record_count ?? 0} records`] *)
Definition completed_text (result : json) : completion string :=
  match get result "record_count" with
  | Fails e => Fails e
  | Done count =>
      match nullish_or count (Some (JNum (number_of_Z 0))) with
      | None => Done "Analysis completed for undefined records"
      | Some v =>
          match ToString v with
          | Done text => Done ("Analysis completed for " ++ text ++ " records")
          | Fails e => Fails e
          end
      end
  end.

(** [handleSubmit()].  After a successful validation [form.file] is a
    file. *)
Definition handleSubmit (net : Network) (st : State) : State :=
  match validateForm st with
  | (false, st) => st
  | (true, st) =>
      match file (form st) with
      | None => st
      | Some csv =>
          let st := setLoading true st in
          let f := form st in
          let st :=
            match
              detect net csv (model_name f) (model_version f)
                (target_variable f) (sensitive_attribute f)
                (privileged_group f) (unprivileged_group f)
            with
            | Fulfilled result =>
                let st := log (ConsoleLog "Bias detection API response:" result) st in
                let st := setResult result st in
                match completed_text result with
                | Done text =>
                    toast {| Notice.title := "Bias detection completed";
                             Notice.description := text;
                             Notice.variant := None |} st
                | Fails e => handleSubmit_catch (ThrowError e) st
                end
            | Rejected error => handleSubmit_catch error st
            end in
          setLoading false st
      end
  end.

End Page.

End BiasDetection.

(** src/pages/ComplianceReport.tsx *)
Module ComplianceReport.

Section Page.

Context {rt : Runtime}.

Record ComplianceForm := {
  file : option File;
  model_name : string;
  model_version : string;
  target_variable : string;
  sensitive_attribute : string;
  privileged_group : string;
  unprivileged_group : string;
  role : string
}.

Record ComplianceStatus := {
  gdpr : string;
  eeoc : string;
  eu_ai_act : string;
  internal_policy : string
}.

(** What [handleDownloadReport] does to the document: an object URL for
    the blob, an anchor pointing to it that is added, clicked and removed,
    and the URL's release. *)
Inductive dom_event : Type :=
| CreateObjectURL (b : Blob)
| AppendAnchor (download : string) (target : Blob)
| ClickAnchor (download : string) (target : Blob)
| RemoveAnchor
| RevokeObjectURL (b : Blob).

Record State := {
  form : ComplianceForm;
  loading : bool;
  reportGenerated : bool;
  pdfBlob : option Blob;
  complianceStatus : ComplianceStatus;
  toasts : list Notice.t;
  console : list console_entry;
  dom : list dom_event
}.

Definition empty_form : ComplianceForm :=
  {| file := None; model_name := ""; model_version := "";
     target_variable := ""; sensitive_attribute := "";
     privileged_group := ""; unprivileged_group := ""; role := "executive" |}.

Definition pending : ComplianceStatus :=
  {| gdpr := "pending"; eeoc := "pending"; eu_ai_act := "pending";
     internal_policy := "pending" |}.

Definition initial : State :=
  {| form := empty_form; loading := false; reportGenerated := false;
     pdfBlob := None; complianceStatus := pending; toasts := [];
     console := []; dom := [] |}.

Definition setForm (f : ComplianceForm) (st : State) : State :=
  {| form := f; loading := loading st; reportGenerated := reportGenerated st;
     pdfBlob := pdfBlob st; complianceStatus := complianceStatus st;
     toasts := toasts st; console := console st; dom := dom st |}.

Definition setLoading (b : bool) (st : State) : State :=
  {| form := form st; loading := b; reportGenerated := reportGenerated st;
     pdfBlob := pdfBlob st; complianceStatus := complianceStatus st;
     toasts := toasts st; console := console st; dom := dom st |}.

Definition setReportGenerated (b : bool) (st : State) : State :=
  {| form := form st; loading := loading st; reportGenerated := b;
     pdfBlob := pdfBlob st; complianceStatus := complianceStatus st;
     toasts := toasts st; console := console st; dom := dom st |}.

Definition setPdfBlob (b : option Blob) (st : State) : State :=
  {| form := form st; loading := loading st;
     reportGenerated := reportGenerated st;
     pdfBlob := b; complianceStatus := complianceStatus st;
     toasts := toasts st; console := console st; dom := dom st |}.

Definition setComplianceStatus (c : ComplianceStatus) (st : State) : State :=
  {| form := form st; loading := loading st;
     reportGenerated := reportGenerated st;
     pdfBlob := pdfBlob st; complianceStatus := c;
     toasts := toasts st; console := console st; dom := dom st |}.

Definition toast (n : Notice.t) (st : State) : State :=
  {| form := form st; loading := loading st;
     reportGenerated := reportGenerated st;
     pdfBlob := pdfBlob st; complianceStatus := complianceStatus st;
     toasts := (toasts st ++ [n])%list; console := console st; dom := dom st |}.

Definition log (entry : console_entry) (st : State) : State :=
  {| form := form st; loading := loading st;
     reportGenerated := reportGenerated st;
     pdfBlob := pdfBlob st; complianceStatus := complianceStatus st;
     toasts := toasts st; console := (console st ++ [entry])%list;
     dom := dom st |}.

Definition emit (events : list dom_event) (st : State) : State :=
  {| form := form st; loading := loading st;
     reportGenerated := reportGenerated st;
     pdfBlob := pdfBlob st; complianceStatus := complianceStatus st;
     toasts := toasts st; console := console st;
     dom := (dom st ++ events)%list |}.

(** [form[field]] for a text field; [None] for any other key. *)
Definition text_field (f : ComplianceForm) (field : string) : option string :=
  if String.eqb field "model_name" then Some (model_name f)
  else if String.eqb field "model_version" then Some (model_version f)
  else if String.eqb field "target_variable" then Some (target_variable f)
  else if String.eqb field "sensitive_attribute" then Some (sensitive_attribute f)
  else if String.eqb field "privileged_group" then Some (privileged_group f)
  else if String.eqb field "unprivileged_group" then Some (unprivileged_group f)
  else if String.eqb field "role" then Some (role f)
  else None.

(** [handleInputChange(field, value)].  The page calls it with the names of
    its text fields. *)
Definition handleInputChange (field value : string) (st : State) : State :=
  let f := form st in
  let pick name old := if String.eqb field name then value else old in
  setForm
    {| file := file f;
       model_name := pick "model_name" (model_name f);
       model_version := pick "model_version" (model_version f);
       target_variable := pick "target_variable" (target_variable f);
       sensitive_attribute := pick "sensitive_attribute" (sensitive_attribute f);
       privileged_group := pick "privileged_group" (privileged_group f);
       unprivileged_group := pick "unprivileged_group" (unprivileged_group f);
       role := pick "role" (role f) |}
    st.

(** [handleFileSelect(file)] *)
Definition handleFileSelect (selected : File) (st : State) : State :=
  let f := form st in
  setForm
    {| file := Some selected;
       model_name := model_name f; model_version := model_version f;
       target_variable := target_variable f;
       sensitive_attribute := sensitive_attribute f;
       privileged_group := privileged_group f;
       unprivileged_group := unprivileged_group f; role := role f |}
    st.

Definition requiredFields : list string :=
  [ "model_name"; "model_version"; "target_variable"; "sensitive_attribute";
    "privileged_group"; "unprivileged_group" ].

(** The [for] loop of [validateForm]. *)
Fixpoint check_fields (fields : list string) (st : State) : bool * State :=
  match fields with
  | [] => (true, st)
  | field :: rest =>
      let filled :=
        match text_field (form st) field with
        | Some text => JsString.truthy text
        | None => false
        end in
      if negb filled then
        (false,
         toast {| Notice.title := "Missing required field";
                  Notice.description :=
                    "Please fill in " ++ JsString.replace field "_" " ";
                  Notice.variant := Some "destructive" |} st)
      else check_fields rest st
  end.

(** [validateForm()] *)
Definition validateForm (st : State) : bool * State :=
  match file (form st) with
  | None =>
      (false,
       toast {| Notice.title := "File required";
                Notice.description := "Please upload a CSV file";
                Notice.variant := Some "destructive" |} st)
  | Some _ => check_fields requiredFields st
  end.

(** Whether [form[field]] is truthy. *)
Definition field_filled (st : State) (field : string) : bool :=
  match text_field (form st) field with
  | Some text => JsString.truthy text
  | None => false
  end.

(** A form that [validateForm] lets through: a file and no empty text
    field among the six required ones. *)
Definition complete (f : ComplianceForm) : bool :=
  match file f with Some _ => true | None => false end
  && JsString.truthy (model_name f)
  && JsString.truthy (model_version f)
  && JsString.truthy (target_variable f)
  && JsString.truthy (sensitive_attribute f)
  && JsString.truthy (privileged_group f)
  && JsString.truthy (unprivileged_group f).

Definition mockStatus : ComplianceStatus :=
  {| gdpr := "compliant"; eeoc := "non-compliant";
     eu_ai_act := "non-compliant"; internal_policy := "compliant" |}.

(** The [catch] clause of [handleGenerateReport]. *)
Definition handleGenerateReport_catch (error : thrown) (st : State) : State :=
  let st := log (ConsoleError "Compliance report API error:" error) st in
  let errorMessage :=
    match error with
    | ThrowApiError e => message e
    | ThrowError _ => "Failed to generate compliance report"
    end in
  toast {| Notice.title := "Report generation failed";
           Notice.description := errorMessage;
           Notice.variant := Some "destructive" |} st.

(** [handleGenerateReport()].  After a successful validation [form.file] is
    a file. *)
Definition handleGenerateReport (net : Network) (st : State) : State :=
  match validateForm st with
  | (false, st) => st
  | (true, st) =>
      match file (form st) with
      | None => st
      | Some csv =>
          let st := setLoading true st in
          let f := form st in
          let st :=
            match
              generateReport net csv (model_name f) (model_version f)
                (target_variable f) (sensitive_attribute f)
                (privileged_group f) (unprivileged_group f) (Some (role f))
            with
            | Fulfilled pdf =>
                let st := setPdfBlob (Some pdf) st in
                let st := setComplianceStatus mockStatus st in
                let st := setReportGenerated true st in
                toast {| Notice.title := "Compliance report generated";
                         Notice.description := "Report is ready for download";
                         Notice.variant := None |} st
            | Rejected error => handleGenerateReport_catch error st
            end in
          setLoading false st
      end
  end.

(** [handleDownloadReport()] *)
Definition handleDownloadReport (st : State) : State :=
  match pdfBlob st with
  | Some pdf =>
      let name := "Ethical_AI_Compliance_Report.pdf" in
      let st :=
        emit [ CreateObjectURL pdf; AppendAnchor name pdf; ClickAnchor name pdf;
               RemoveAnchor; RevokeObjectURL pdf ] st in
      toast {| Notice.title := "Download started";
               Notice.description := "Ethical_AI_Compliance_Report.pdf";
               Notice.variant := None |} st
  | None =>
      toast {| Notice.title := "Download failed";
               Notice.description := "No report available for download";
               Notice.variant := Some "destructive" |} st
  end.

(** Object URLs created and not yet revoked. *)
Fixpoint open_urls (events : list dom_event) : Z :=
  match events with
  | [] => 0
  | CreateObjectURL _ :: rest => open_urls rest + 1
  | RevokeObjectURL _ :: rest => open_urls rest - 1
  | _ :: rest => open_urls rest
  end.

End Page.

End ComplianceReport.

(** ** Sample forms and files *)

Module PageSamples.

Definition hiring_csv : File :=
  {| filename := "hiring.csv"; bytes := [Byte.x61; Byte.x2c; Byte.x62] |}.

Definition bias_form : BiasDetection.BiasDetectionForm :=
  {| BiasDetection.file := Some hiring_csv;
     BiasDetection.model_name := "m1";
     BiasDetection.model_version := "1.0";
     BiasDetection.target_variable := "hired";
     BiasDetection.sensitive_attribute := "gender";
     BiasDetection.privileged_group := "Male";
     BiasDetection.unprivileged_group := "Female" |}.

Definition bias_ready : BiasDetection.State :=
  BiasDetection.setForm bias_form BiasDetection.initial.

(** The same form with the sensitive attribute still to be chosen. *)
Definition bias_unfinished : BiasDetection.State :=
  BiasDetection.handleInputChange "sensitive_attribute" "" bias_ready.

Definition report_form : ComplianceReport.ComplianceForm :=
  {| ComplianceReport.file := Some hiring_csv;
     ComplianceReport.model_name := "m1";
     ComplianceReport.model_version := "1.0";
     ComplianceReport.target_variable := "hired";
     ComplianceReport.sensitive_attribute := "gender";
     ComplianceReport.privileged_group := "Male";
     ComplianceReport.unprivileged_group := "Female";
     ComplianceReport.role := "auditor" |}.

Definition report_ready : ComplianceReport.State :=
  ComplianceReport.setForm report_form ComplianceReport.initial.

(** A file of [n] bytes. *)
Definition file_of_size (name : string) (n : N) : File :=
  {| filename := name; bytes := List.repeat Byte.x00 (N.to_nat n) |}.

Definition bias_result : json :=
  JObj [ ("audit_status", JStr "NON-COMPLIANT"); ("record_count", JNum 104) ].

End PageSamples.

Import PageSamples.

(** * Properties *)

(** ** Decimal numerals and Number::toString *)

Module StrFacts.
Import Str.

(** Fuel beyond the number of digits changes nothing. *)
Lemma digits_from_fuel (f : nat) : forall n,
  0 <= n < 10 ^ Z.of_nat f -> (0 < f)%nat ->
  digits_from (S f) n = digits_from f n.
Proof.
  induction f as [|f IH]; intros n Hn Hf; [lia|].
  cbn [digits_from]. destruct (n <? 10) eqn:E; [reflexivity|].
  apply Z.ltb_ge in E.
  destruct f as [|f].
  - simpl in Hn. lia.
  - f_equal. apply IH; [|lia].
    split; [apply Z.div_pos; lia|].
    apply Z.div_lt_upper_bound; [lia|].
    rewrite Nat2Z.inj_succ, Z.pow_succ_r in Hn by lia. lia.
Qed.

Lemma digits_from_more (extra f : nat) (n : Z) :
  0 <= n < 10 ^ Z.of_nat f -> (0 < f)%nat ->
  digits_from (extra + f) n = digits_from f n.
Proof.
  intros Hn Hf. induction extra as [|extra IH]; [reflexivity|].
  cbn [Nat.add]. rewrite digits_from_fuel; [exact IH| |lia].
  split; [lia|].
  apply Z.lt_le_trans with (10 ^ Z.of_nat f); [lia|].
  apply Z.pow_le_mono_r; lia.
Qed.

Lemma digits_from_any (f g : nat) (n : Z) :
  0 <= n < 10 ^ Z.of_nat f -> 0 <= n < 10 ^ Z.of_nat g ->
  (0 < f)%nat -> (0 < g)%nat ->
  digits_from f n = digits_from g n.
Proof.
  intros Hf Hg Pf Pg.
  destruct (Nat.le_ge_cases f g) as [L|L].
  - replace g with ((g - f) + f)%nat by lia. symmetry. now apply digits_from_more.
  - replace f with ((f - g) + g)%nat by lia. now apply digits_from_more.
Qed.

Lemma below_pow10_log2 (n : Z) :
  0 <= n -> n < 10 ^ Z.of_nat (S (Z.to_nat (Z.log2 n))).
Proof.
  intros Hn.
  rewrite Nat2Z.inj_succ, Z2Nat.id by apply Z.log2_nonneg.
  destruct (Z.eq_dec n 0) as [->|Hz]; [reflexivity|].
  apply Z.lt_le_trans with (2 ^ Z.succ (Z.log2 n)).
  - apply Z.log2_spec. lia.
  - apply Z.pow_le_mono_l. lia.
Qed.

Lemma digits_enough (f : nat) (n : Z) :
  0 <= n < 10 ^ Z.of_nat f -> (0 < f)%nat -> digits n = digits_from f n.
Proof.
  intros Hn Hf. unfold digits. apply digits_from_any; try lia.
  split; [lia|]. apply below_pow10_log2. lia.
Qed.

(** The numeral of [n] is the numeral of [n / 10] followed by the last
    digit. *)
Lemma digits_step (n : Z) : 10 <= n ->
  digits n = digits (n / 10) ++ String (digit (n mod 10)) "".
Proof.
  intros Hn. unfold digits at 1. cbn [digits_from].
  destruct (n <? 10) eqn:E; [apply Z.ltb_lt in E; lia|].
  f_equal. symmetry. apply digits_enough.
  - split; [apply Z.div_pos; lia|].
    apply Z.div_lt_upper_bound; [lia|].
    rewrite Z2Nat.id by apply Z.log2_nonneg.
    apply Z.lt_le_trans with (2 ^ Z.succ (Z.log2 n)).
    + apply Z.log2_spec. lia.
    + rewrite Z.pow_succ_r by apply Z.log2_nonneg.
      assert (2 ^ Z.log2 n <= 10 ^ Z.log2 n).
      { apply Z.pow_le_mono_l. lia. }
      lia.
  - assert (3 <= Z.log2 n).
    { apply Z.log2_le_pow2; simpl; lia. }
    lia.
Qed.

Lemma digits_small (n : Z) : 0 <= n < 10 -> digits n = String (digit n) "".
Proof.
  intros Hn. unfold digits. cbn [digits_from].
  destruct (n <? 10) eqn:E; [reflexivity|]. apply Z.ltb_ge in E. lia.
Qed.

Lemma digits_mul10 (m : Z) : 0 < m -> digits (m * 10) = digits m ++ "0".
Proof.
  intros Hm. rewrite digits_step by lia.
  rewrite Z.div_mul by lia. rewrite Z.mod_mul by lia. reflexivity.
Qed.

Lemma zeros_snoc (j : nat) : zeros j ++ "0" = zeros (S j).
Proof.
  induction j as [|j IH]; [reflexivity|].
  cbn [zeros append]. cbn [zeros] in IH. now rewrite IH.
Qed.

Lemma append_assoc (a b c : string) : (a ++ b) ++ c = a ++ (b ++ c).
Proof.
  induction a as [|ch a IH]; [reflexivity|]. cbn [append]. now rewrite IH.
Qed.

(** Multiplying by a power of ten appends zeros. *)
Lemma digits_shift (s : Z) (j : nat) : 0 < s ->
  digits (s * 10 ^ Z.of_nat j) = digits s ++ zeros j.
Proof.
  intros Hs. induction j as [|j IH].
  - rewrite Z.mul_1_r. cbn [zeros]. clear. induction (digits s); [reflexivity|].
    cbn [append]. now f_equal.
  - rewrite Nat2Z.inj_succ, Z.pow_succ_r by lia.
    replace (s * (10 * 10 ^ Z.of_nat j)) with (s * 10 ^ Z.of_nat j * 10) by lia.
    rewrite digits_mul10
      by (apply Z.mul_pos_pos; [lia|apply Z.pow_pos_nonneg; lia]).
    rewrite IH, append_assoc, zeros_snoc. reflexivity.
Qed.

Lemma length_append (a b : string) :
  String.length (a ++ b) = (String.length a + String.length b)%nat.
Proof.
  induction a as [|ch a IH]; [reflexivity|].
  cbn [append String.length]. now rewrite IH.
Qed.

(** A positive integer with [len] decimal digits lies in
    [10^(len-1), 10^len). *)
Lemma digits_magnitude_below (bound : nat) : forall x,
  0 < x < Z.of_nat bound ->
  let len := Z.of_nat (String.length (digits x)) in
  1 <= len /\ 10 ^ (len - 1) <= x < 10 ^ len.
Proof.
  induction bound as [|bound IH]; intros x Hx; [lia|].
  destruct (Z_lt_le_dec x 10) as [S|L].
  - rewrite digits_small by lia. cbn. lia.
  - cbv zeta. rewrite digits_step by lia. rewrite length_append.
    cbn [String.length].
    rewrite Nat2Z.inj_add. change (Z.of_nat 1) with 1.
    assert (Hq : 0 < x / 10 < Z.of_nat bound).
    { split; [apply Z.div_str_pos; lia|].
      apply Z.div_lt_upper_bound; lia. }
    specialize (IH _ Hq). cbv zeta in IH.
    set (len := Z.of_nat (String.length (digits (x / 10)))) in *.
    destruct IH as (H1 & H2 & H3).
    replace (len + 1 - 1) with (Z.succ (len - 1)) by lia.
    replace (len + 1) with (Z.succ len) by lia.
    rewrite !Z.pow_succ_r by lia.
    pose proof (Z.div_mod x 10 ltac:(lia)) as E.
    pose proof (Z.mod_pos_bound x 10 ltac:(lia)) as B.
    lia.
Qed.

Lemma digits_magnitude (x : Z) : 0 < x ->
  let len := Z.of_nat (String.length (digits x)) in
  1 <= len /\ 10 ^ (len - 1) <= x < 10 ^ len.
Proof.
  intros Hx. apply (digits_magnitude_below (S (Z.to_nat x))). lia.
Qed.

End StrFacts.

Module F64Facts.
Import F64.

(** Integers below 2^53 are Numbers; rounding a larger one never goes
    below 2^53. *)
Lemma of_Z_small (v : Z) : 0 <= v < 2 ^ 53 -> of_Z v = v.
Proof.
  intros Hv. unfold of_Z.
  assert (Z.log2 v < 53).
  { destruct (Z.eq_dec v 0) as [->|]; [reflexivity|].
    apply Z.log2_lt_pow2; lia. }
  destruct (Z.log2 v - 52 <=? 0) eqn:E; [reflexivity|].
  apply Z.leb_gt in E. lia.
Qed.

Lemma of_Z_large (v : Z) : 2 ^ 53 <= v -> 2 ^ 53 <= of_Z v.
Proof.
  intros Hv. unfold of_Z.
  destruct (Z.log2 v - 52 <=? 0) eqn:E; [exact Hv|].
  apply Z.leb_gt in E.
  set (e := Z.log2 v - 52) in *.
  assert (Hq : 2 ^ 52 <= Z.shiftr v e).
  { rewrite Z.shiftr_div_pow2 by lia.
    apply Z.div_le_lower_bound; [apply Z.pow_pos_nonneg; lia|].
    rewrite Z.mul_comm, <- Z.pow_add_r by lia.
    replace (52 + e) with (Z.log2 v) by (unfold e; lia).
    apply Z.log2_spec. lia. }
  set (q := Z.shiftr v e) in *.
  rewrite Z.shiftl_mul_pow2 by lia.
  assert (2 ^ 1 <= 2 ^ e) by (apply Z.pow_le_mono_r; lia).
  change (2 ^ 1) with 2 in *.
  destruct ((Z.shiftl 1 (e - 1) <? v - Z.shiftl q e)
            || (v - Z.shiftl q e =? Z.shiftl 1 (e - 1)) && Z.odd q); nia.
Qed.

Lemma of_Z_exact (v x : Z) : 0 <= v -> x < 2 ^ 53 -> of_Z v = x -> v = x.
Proof.
  intros Hv Hx E.
  destruct (Z_lt_le_dec v (2 ^ 53)) as [S|L].
  - rewrite of_Z_small in E; lia.
  - apply of_Z_large in L. lia.
Qed.

(** Below 2^53 every candidate denotes [x] exactly. *)
Lemma candidates_sound (x n k s n' : Z) :
  0 < x < 2 ^ 53 -> 1 <= k ->
  In (s, n') (candidates x n k) ->
  n' = n /\ k <= n /\ 10 ^ (k - 1) <= s /\ s * 10 ^ (n - k) = x.
Proof.
  intros Hx Hk. unfold candidates.
  destruct (n <? k) eqn:E; [intros []|]. apply Z.ltb_ge in E.
  rewrite in_map_iff. intros (s0 & Heq & Hin). inversion Heq; subst s0 n'. clear Heq.
  apply filter_In in Hin. destruct Hin as [_ Hf].
  apply andb_prop in Hf. destruct Hf as [Hf H3].
  apply andb_prop in Hf. destruct Hf as [H1 H2].
  apply Z.leb_le in H1. apply Z.eqb_eq in H3.
  repeat split; try lia.
  apply of_Z_exact; [|lia|exact H3].
  assert (0 < 10 ^ (k - 1)) by (apply Z.pow_pos_nonneg; lia).
  assert (0 < 10 ^ (n - k)) by (apply Z.pow_pos_nonneg; lia).
  nia.
Qed.

Lemma fold_closer_in (x k : Z) (rest : list (Z * Z)) : forall c,
  let r := fold_left (closer x k) rest c in r = c \/ In r rest.
Proof.
  induction rest as [|b rest IH]; intros c; [now left|].
  cbn [fold_left]. destruct (IH (closer x k c b)) as [E|I].
  - cbv zeta. rewrite E. unfold closer.
    destruct (_ <? _); [now left|].
    destruct (_ <? _); [right; now left|].
    destruct (Z.even _); [now left|right; now left].
  - right. now right.
Qed.

Lemma best_in (x k : Z) (cs : list (Z * Z)) (c : Z * Z) :
  best x k cs = Some c -> In c cs.
Proof.
  destruct cs as [|c0 rest]; [discriminate|].
  cbn [best]. intros [= <-].
  destruct (fold_closer_in x k rest c0) as [E|I]; [left; now rewrite E|now right].
Qed.

Lemma shortest_sound (x : Z) : 0 < x < 2 ^ 53 ->
  forall fuel k s n k', 1 <= k ->
  shortest fuel x (ndigits x) k = (s, n, k') ->
  1 <= k' <= n /\ 10 ^ (k' - 1) <= s /\ s * 10 ^ (n - k') = x.
Proof.
  intros Hx. induction fuel as [|fuel IH]; intros k s n k' Hk.
  - cbn [shortest]. intros [= <- <- <-].
    destruct (StrFacts.digits_magnitude x ltac:(lia)) as (H1 & H2 & H3).
    fold (ndigits x) in *. rewrite Z.sub_diag, Z.mul_1_r. lia.
  - cbn [shortest].
    destruct (best _ _ _) as [[s0 n0]|] eqn:B.
    + intros [= <- <- <-]. apply best_in in B. apply in_app_or in B.
      destruct B as [B|B]; apply candidates_sound in B; try lia;
        destruct B as (-> & ? & ? & ?); repeat split; lia.
    + apply IH. lia.
Qed.

Lemma toString_pos_safe (x : Z) :
  0 < x < 2 ^ 53 -> toString_pos x = Str.digits x.
Proof.
  intros Hx. unfold toString_pos.
  destruct (shortest _ _ _ _) as [[s n] k] eqn:E.
  apply shortest_sound in E; [|lia|lia].
  destruct E as ((H1 & H2) & H3 & H4).
  assert (0 < 10 ^ (k - 1)) by (apply Z.pow_pos_nonneg; lia).
  assert (Hn : n <= 21).
  { destruct (Z_le_gt_dec n 21) as [|G]; [assumption|exfalso].
    assert (10 ^ 21 <= 10 ^ (n - 1)) by (apply Z.pow_le_mono_r; lia).
    assert (10 ^ (n - 1) <= x).
    { replace (n - 1) with ((k - 1) + (n - k)) by lia.
      rewrite Z.pow_add_r by lia. rewrite <- H4.
      apply Z.mul_le_mono_nonneg_r; [apply Z.pow_nonneg|]; lia. }
    assert (2 ^ 53 < 10 ^ 21) by reflexivity. lia. }
  apply Z.leb_le in Hn. rewrite Hn.
  pose proof (StrFacts.digits_shift s (Z.to_nat (n - k)) ltac:(lia)) as D.
  rewrite Z2Nat.id, H4 in D by lia. now rewrite D.
Qed.

(** On the safe integers Number::toString prints the decimal numeral. *)
Lemma toString_safe (n : Z) :
  Z.abs n <= MAX_SAFE_INTEGER -> toString n = Str.decimal n.
Proof.
  unfold MAX_SAFE_INTEGER. intros Hn. unfold toString.
  rewrite of_Z_small by lia.
  destruct (Z.abs n =? 0) eqn:E0.
  - apply Z.eqb_eq in E0. assert (n = 0) by lia. subst n. reflexivity.
  - apply Z.eqb_neq in E0.
    assert (Ho : (overflow <=? Z.abs n) = false).
    { apply Z.leb_gt. unfold overflow.
      apply Z.le_lt_trans with (2 ^ 53 - 1); [lia|reflexivity]. }
    rewrite Ho. rewrite toString_pos_safe by lia.
    unfold Str.decimal. destruct (n <? 0) eqn:S.
    + apply Z.ltb_lt in S. now rewrite Z.abs_neq by lia.
    + apply Z.ltb_ge in S. now rewrite Z.abs_eq by lia.
Qed.

End F64Facts.

(** ** The request executor *)

Section Executor.

Context {rt : Runtime}.

Lemma fetch_in_time (net : Network) (request : Request) (deadline t : Z)
  (r : Response.t json) :
  net request = Responds t r -> t < deadline ->
  fetch net request (Some deadline) = Done r.
Proof.
  intros E Ht. unfold fetch. rewrite E.
  destruct (deadline <=? t) eqn:L; [apply Z.leb_le in L; lia|reflexivity].
Qed.

Lemma fetch_breaks_in_time (net : Network) (request : Request) (deadline t : Z)
  (err : Error.t) :
  net request = Breaks t err -> t < deadline ->
  fetch net request (Some deadline) = Fails err.
Proof.
  intros E Ht. unfold fetch. rewrite E.
  destruct (deadline <=? t) eqn:L; [apply Z.leb_le in L; lia|reflexivity].
Qed.

Lemma fetch_aborted (net : Network) (request : Request) (deadline : Z) :
  deadline <= arrival (net request) ->
  fetch net request (Some deadline) = Fails AbortError.
Proof.
  intros Ht. unfold fetch.
  destruct (net request) as [t r|t err]; cbn [arrival] in Ht;
    apply Z.leb_le in Ht; now rewrite Ht.
Qed.

Lemma fetch_without_signal (net : Network) (request : Request) :
  fetch net request None
  = match net request with
    | Responds _ r => Done r
    | Breaks _ err => Fails err
    end.
Proof. unfold fetch. now destruct (net request). Qed.

(** The two catch clauses are the same code. *)
Lemma catch_clauses_agree {A : Type} (error : thrown) :
  @apiFormRequest_catch rt A error = apiRequest_catch error.
Proof. reflexivity. Qed.

(** The statements after the status test are [report_failure]. *)
Lemma failing_branch (r : Response.t json) {A : Type} :
  bind (await (get (json_or_empty r) "message"))
    (fun field =>
       throw_new_ApiError
         (logical_or field (Some (JStr (http_status_line r))))
         (Response.status r) (Some (json_or_empty r)))
  = @report_failure rt A r.
Proof.
  unfold report_failure, throw_new_ApiError.
  destruct (get _ _) as [field|err]; cbn [await bind]; [|reflexivity].
  now destruct (new_ApiError _ _ _).
Qed.

Lemma apiRequest_guarded (net : Network) (endpoint : string)
  (options : RequestInit) :
  apiRequest net endpoint options
  = guarded net (json_request endpoint options) 10000.
Proof.
  unfold apiRequest, guarded.
  destruct (fetch _ _ _) as [r|err]; cbn [await bind]; [|reflexivity].
  destruct (Response.ok r); cbn [negb]; [reflexivity|].
  now rewrite failing_branch.
Qed.

Lemma apiFormRequest_guarded (net : Network) (endpoint : string)
  (formData : FormData.t) :
  apiFormRequest net endpoint formData
  = guarded net (form_request endpoint formData) 30000.
Proof.
  unfold apiFormRequest, guarded.
  change (@apiFormRequest_catch rt json) with (@apiRequest_catch rt json).
  destruct (fetch _ _ _) as [r|err]; cbn [await bind]; [|reflexivity].
  destruct (Response.ok r); cbn [negb]; [reflexivity|].
  now rewrite failing_branch.
Qed.

Lemma generateReport_failing_status (net : Network) (file : File)
  (modelName modelVersion targetVariable sensitiveAttribute
   privilegedGroup unprivilegedGroup : string) (role : option string)
  (t : Z) (r : Response.t json) :
  net (form_request "/api/v1/compliance/generate"
         (generateReport_formData file modelName modelVersion targetVariable
            sensitiveAttribute privilegedGroup unprivilegedGroup role))
  = Responds t r ->
  Response.ok r = false ->
  generateReport net file modelName modelVersion targetVariable
    sensitiveAttribute privilegedGroup unprivilegedGroup role
  = report_failure r.
Proof.
  intros E Hok. unfold generateReport.
  rewrite fetch_without_signal, E. cbn [await bind]. rewrite Hok. cbn [negb].
  apply failing_branch.
Qed.

(** What a guarded call does in each situation. *)
Lemma guarded_success (net : Network) (request : Request) (deadline t : Z)
  (r : Response.t json) :
  net request = Responds t r -> t < deadline -> Response.ok r = true ->
  guarded net request deadline
  = try_catch (await (Response.json r)) apiRequest_catch.
Proof.
  intros E Ht Hok. unfold guarded.
  rewrite (fetch_in_time _ _ _ _ _ E Ht). cbn [await bind]. now rewrite Hok.
Qed.

Lemma guarded_failing_status (net : Network) (request : Request)
  (deadline t : Z) (r : Response.t json) :
  net request = Responds t r -> t < deadline -> Response.ok r = false ->
  guarded net request deadline = try_catch (report_failure r) apiRequest_catch.
Proof.
  intros E Ht Hok. unfold guarded.
  rewrite (fetch_in_time _ _ _ _ _ E Ht). cbn [await bind]. now rewrite Hok.
Qed.

Lemma guarded_breaks (net : Network) (request : Request) (deadline t : Z)
  (err : Error.t) :
  net request = Breaks t err -> t < deadline ->
  guarded net request deadline = apiRequest_catch (ThrowError err).
Proof.
  intros E Ht. unfold guarded. now rewrite (fetch_breaks_in_time _ _ _ _ _ E Ht).
Qed.

Lemma guarded_deadline (net : Network) (request : Request) (deadline : Z) :
  deadline <= arrival (net request) ->
  guarded net request deadline = Rejected (ThrowApiError timeout_error).
Proof.
  intros Ht. unfold guarded. now rewrite (fetch_aborted _ _ _ Ht).
Qed.

(** A catch clause turns every platform error into one of the three
    transport forms. *)
Lemma catch_platform_error {A : Type} (err : Error.t) :
  exists e, @apiRequest_catch rt A (ThrowError err) = Rejected (ThrowApiError e)
            /\ transport_form e.
Proof.
  unfold apiRequest_catch, transport_form.
  destruct (String.eqb (Error.name err) "AbortError").
  - exists timeout_error. split; [reflexivity|tauto].
  - destruct (String.eqb (Error.name err) "TypeError"
              && Str.includes (Error.message err) "fetch").
    + exists connect_error. split; [reflexivity|tauto].
    + exists unavailable_error. split; [reflexivity|tauto].
Qed.

(** A guarded body never lets a platform error out. *)
Lemma try_catch_outcome {A : Type} (body : promise A) :
  (exists a, body = Fulfilled a /\ try_catch body apiRequest_catch = Fulfilled a)
  \/ (exists e, try_catch body apiRequest_catch = Rejected (ThrowApiError e)
                /\ (body = Rejected (ThrowApiError e) \/ transport_form e)).
Proof.
  destruct body as [a|[e|err]]; cbn [try_catch].
  - left. now exists a.
  - right. exists e. split; [reflexivity|now left].
  - right. destruct (catch_platform_error (A := A) err) as (e & E & F).
    exists e. split; [exact E|now right].
Qed.

Lemma report_failure_outcome {A : Type} (r : Response.t json) :
  (exists err, @report_failure rt A r = Rejected (ThrowError err))
  \/ (exists e, @report_failure rt A r = Rejected (ThrowApiError e)
                /\ server_form r e).
Proof.
  unfold report_failure.
  destruct (get _ _) as [field|err]; [|left; now exists err].
  unfold new_ApiError.
  destruct (logical_or _ _) as [v|].
  - destruct (ToString v) as [text|err]; [|left; now exists err].
    right. eexists. split; [reflexivity|]. now split.
  - right. eexists. split; [reflexivity|]. now split.
Qed.

(** Every outcome of a guarded call is a payload, one of the three transport
    forms, or the server-reported form of a response that was received. *)
Lemma guarded_outcome (net : Network) (request : Request) (deadline : Z) :
  (exists payload, guarded net request deadline = Fulfilled payload)
  \/ (exists e, guarded net request deadline = Rejected (ThrowApiError e)
        /\ (transport_form e
            \/ exists t r, net request = Responds t r
                           /\ Response.ok r = false /\ server_form r e)).
Proof.
  destruct (Z_lt_le_dec (arrival (net request)) deadline) as [Ht|Ht].
  - destruct (net request) as [t r|t err] eqn:E; cbn [arrival] in Ht.
    + destruct (Response.ok r) eqn:Hok.
      * rewrite (guarded_success _ _ _ _ _ E Ht Hok).
        destruct (try_catch_outcome (await (Response.json r)))
          as [(a & _ & F)|(e & F & [B|T])].
        -- left. now exists a.
        -- destruct (Response.json r); discriminate B.
        -- right. exists e. split; [exact F|now left].
      * rewrite (guarded_failing_status _ _ _ _ _ E Ht Hok).
        destruct (report_failure_outcome (A := json) r)
          as [(err & R)|(e & R & S)]; rewrite R; cbn [try_catch].
        -- destruct (catch_platform_error (A := json) err) as (e & F & T).
           right. exists e. split; [exact F|now left].
        -- right. exists e. split; [reflexivity|]. right. now exists t, r.
    + rewrite (guarded_breaks _ _ _ _ _ E Ht).
      destruct (catch_platform_error (A := json) err) as (e & F & T).
      right. exists e. split; [exact F|now left].
  - rewrite (guarded_deadline _ _ _ Ht).
    right. exists timeout_error. split; [reflexivity|]. left. now left.
Qed.

(** What holds of every guarded call holds of both executors. *)
Lemma executors_reject_intro (r : Response.t json) (t : Z) (e : ApiError) :
  (forall net request deadline,
     net request = Responds t r -> t < deadline ->
     guarded net request deadline = Rejected (ThrowApiError e)) ->
  executors_reject r t e.
Proof.
  intros H. split.
  - intros net endpoint options E Ht. rewrite apiRequest_guarded. now apply H.
  - intros net endpoint formData E Ht. rewrite apiFormRequest_guarded.
    now apply H.
Qed.

End Executor.

(** ** Transport failures *)

(** Every outcome of either executor is a payload, one of the three
    transport forms, or the server-reported form of a received response. *)
Lemma apiRequest_outcome {rt : Runtime} (net : Network) (endpoint : string)
  (options : RequestInit) :
  (exists payload, apiRequest net endpoint options = Fulfilled payload)
  \/ (exists e, apiRequest net endpoint options = Rejected (ThrowApiError e)
        /\ (transport_form e
            \/ exists t r, net (json_request endpoint options) = Responds t r
                           /\ Response.ok r = false /\ server_form r e)).
Proof. rewrite apiRequest_guarded. apply guarded_outcome. Qed.

Lemma apiFormRequest_outcome {rt : Runtime} (net : Network) (endpoint : string)
  (formData : FormData.t) :
  (exists payload, apiFormRequest net endpoint formData = Fulfilled payload)
  \/ (exists e, apiFormRequest net endpoint formData = Rejected (ThrowApiError e)
        /\ (transport_form e
            \/ exists t r, net (form_request endpoint formData) = Responds t r
                           /\ Response.ok r = false /\ server_form r e)).
Proof. rewrite apiFormRequest_guarded. apply guarded_outcome. Qed.

(** A refused connection, as Chrome and Firefox report it (a TypeError whose
    message mentions fetch), becomes the connectivity error in both
    executors. *)
Lemma guarded_connection_refused {rt : Runtime} (net : Network)
  (request : Request) (deadline t : Z) (msg stack : string) :
  net request
  = Breaks t {| Error.name := "TypeError"; Error.message := msg;
                Error.stack := stack |} ->
  t < deadline -> Str.includes msg "fetch" = true ->
  guarded net request deadline = Rejected (ThrowApiError connect_error).
Proof.
  intros E Ht Hm. rewrite (guarded_breaks _ _ _ _ _ E Ht).
  unfold apiRequest_catch. cbn [Error.name Error.message]. now rewrite Hm.
Qed.

Lemma apiRequest_connection_refused {rt : Runtime} (net : Network)
  (endpoint : string) (options : RequestInit) (t : Z) (msg stack : string) :
  net (json_request endpoint options)
  = Breaks t {| Error.name := "TypeError"; Error.message := msg;
                Error.stack := stack |} ->
  t < 10000 -> Str.includes msg "fetch" = true ->
  apiRequest net endpoint options = Rejected (ThrowApiError connect_error).
Proof. rewrite apiRequest_guarded. apply guarded_connection_refused. Qed.

Lemma apiFormRequest_connection_refused {rt : Runtime} (net : Network)
  (endpoint : string) (formData : FormData.t) (t : Z) (msg stack : string) :
  net (form_request endpoint formData)
  = Breaks t {| Error.name := "TypeError"; Error.message := msg;
                Error.stack := stack |} ->
  t < 30000 -> Str.includes msg "fetch" = true ->
  apiFormRequest net endpoint formData = Rejected (ThrowApiError connect_error).
Proof. rewrite apiFormRequest_guarded. apply guarded_connection_refused. Qed.

(** The spec's scenario on a JSON-mode call and on an upload. *)
Example getSummary_connection_refused :
  getSummary (answers (Breaks 12 failed_to_fetch))
  = Rejected (ThrowApiError connect_error).
Proof. reflexivity. Qed.

Example detect_connection_refused :
  detect (answers (Breaks 12 failed_to_fetch)) a_file
    "m1" "1.0" "hired" "gender" "Male" "Female"
  = Rejected (ThrowApiError connect_error).
Proof. reflexivity. Qed.

(** C1, what the code does for generate-compliance-report: [generateReport]
    calls [fetch] outside any [try], so when the network fails before a
    response the caller receives the platform's own error, whatever it is,
    and not an [ApiError]. *)
Theorem generateReport_propagates_transport_error {rt : Runtime} (net : Network)
  (file : File)
  (modelName modelVersion targetVariable sensitiveAttribute
   privilegedGroup unprivilegedGroup : string) (role : option string)
  (t : Z) (err : Error.t) :
  net (form_request "/api/v1/compliance/generate"
         (generateReport_formData file modelName modelVersion targetVariable
            sensitiveAttribute privilegedGroup unprivilegedGroup role))
  = Breaks t err ->
  generateReport net file modelName modelVersion targetVariable
    sensitiveAttribute privilegedGroup unprivilegedGroup role
  = Rejected (ThrowError err).
Proof.
  intros E. unfold generateReport. rewrite fetch_without_signal, E. reflexivity.
Qed.

(** With the server down, the report call ends with Chrome's TypeError. *)
Lemma generateReport_connection_refused :
  generateReport (answers (Breaks 12 failed_to_fetch)) a_file
    "m1" "1.0" "hired" "gender" "Male" "Female" None
  = Rejected (ThrowError failed_to_fetch).
Proof.
  apply (generateReport_propagates_transport_error
           (answers (Breaks 12 failed_to_fetch)) a_file
           "m1" "1.0" "hired" "gender" "Male" "Female" None 12 failed_to_fetch).
  reflexivity.
Defined.

(** ** Deadlines *)

(** Both executors abort at their deadline: whatever the network does at or
    after it, the call is rejected with the timeout error. *)
Lemma apiRequest_deadline {rt : Runtime} (net : Network) (endpoint : string)
  (options : RequestInit) :
  10000 <= arrival (net (json_request endpoint options)) ->
  apiRequest net endpoint options = Rejected (ThrowApiError timeout_error).
Proof. rewrite apiRequest_guarded. apply guarded_deadline. Qed.

Lemma apiFormRequest_deadline {rt : Runtime} (net : Network) (endpoint : string)
  (formData : FormData.t) :
  30000 <= arrival (net (form_request endpoint formData)) ->
  apiFormRequest net endpoint formData = Rejected (ThrowApiError timeout_error).
Proof. rewrite apiFormRequest_guarded. apply guarded_deadline. Qed.

Example getSummary_answered_too_late :
  getSummary (answers (Responds 10000 summary_200))
  = Rejected (ThrowApiError timeout_error).
Proof. reflexivity. Qed.

Example detect_answered_in_time :
  exists result,
    detect (answers (Responds 29999 summary_200)) a_file
      "m1" "1.0" "hired" "gender" "Male" "Female"
    = Fulfilled result.
Proof. eexists. reflexivity. Qed.

(** C2, what the code does for generate-compliance-report: [generateReport]
    passes no abort signal to [fetch], so a response that arrives after the
    30 seconds of the multipart mode, however late, is still turned into a
    fulfilled promise carrying the document. *)
Theorem generateReport_has_no_deadline {rt : Runtime} (net : Network)
  (file : File)
  (modelName modelVersion targetVariable sensitiveAttribute
   privilegedGroup unprivilegedGroup : string) (role : option string)
  (t : Z) (r : Response.t json) (document : Blob) :
  net (form_request "/api/v1/compliance/generate"
         (generateReport_formData file modelName modelVersion targetVariable
            sensitiveAttribute privilegedGroup unprivilegedGroup role))
  = Responds t r ->
  30000 < t ->
  Response.ok r = true ->
  Response.blob r = Done document ->
  generateReport net file modelName modelVersion targetVariable
    sensitiveAttribute privilegedGroup unprivilegedGroup role
  = Fulfilled document.
Proof.
  intros E _ Hok Hb. unfold generateReport. rewrite fetch_without_signal, E.
  cbn [await bind]. rewrite Hok. cbn [negb]. now rewrite Hb.
Qed.

(** A report that takes 45 seconds is still delivered. *)
Lemma generateReport_late_success :
  generateReport (answers (Responds 45000 pdf_200)) a_file
    "m1" "1.0" "hired" "gender" "Male" "Female" None
  = Fulfilled [Byte.x25; Byte.x50; Byte.x44; Byte.x46].
Proof.
  apply (generateReport_has_no_deadline
           (answers (Responds 45000 pdf_200)) a_file
           "m1" "1.0" "hired" "gender" "Male" "Female" None 45000 pdf_200);
    [reflexivity | lia | reflexivity | reflexivity].
Defined.

(** ** Responses with a failing status *)

Lemma failing_status_not_ok {J : Type} (r : Response.t J) :
  400 <= Response.status r -> Response.ok r = false.
Proof.
  intros H. unfold Response.ok. apply andb_false_iff. right.
  apply Z.leb_gt. lia.
Qed.

(** Once the [ApiError] of a failing response is built, every function
    delivers it as it is. *)
Lemma built_error_is_delivered {rt : Runtime} (r : Response.t json) (t : Z)
  (e : ApiError) :
  Response.ok r = false ->
  (forall A, @report_failure rt A r = Rejected (ThrowApiError e)) ->
  executors_reject r t e /\ generateReport_rejects r t e.
Proof.
  intros Hok R. split.
  - apply executors_reject_intro. intros net request deadline E Ht.
    now rewrite (guarded_failing_status _ _ _ _ _ E Ht Hok), R.
  - intros net file m v tv sa pg ug role E.
    now rewrite (generateReport_failing_status _ _ _ _ _ _ _ _ _ _ _ E Hok), R.
Qed.

Lemma report_failure_null {rt : Runtime} {A : Type} (r : Response.t json) :
  Response.json r = Done JNull ->
  @report_failure rt A r
  = Rejected (ThrowError (TypeError (null_read_message "message"))).
Proof.
  intros Hj. unfold report_failure, json_or_empty. now rewrite Hj.
Qed.

Lemma report_failure_falsy {rt : Runtime} {A : Type} (r : Response.t json)
  (field : value) :
  get (json_or_empty r) "message" = Done field ->
  ToBoolean field = false ->
  @report_failure rt A r
  = Rejected (ThrowApiError (server_error r (http_status_line r))).
Proof.
  intros G F. unfold report_failure, logical_or. now rewrite G, F.
Qed.


(** A body that is not valid JSON is replaced by the empty record, and the
    error then carries the status, the fallback message and that record. *)
Lemma unparseable_error_body {rt : Runtime} (r : Response.t json) (t : Z)
  (err : Error.t) :
  Response.ok r = false ->
  Response.json r = Fails err ->
  let e := {| message := http_status_line r; status := Response.status r;
              response := Some (JObj []) |} in
  executors_reject r t e /\ generateReport_rejects r t e.
Proof.
  intros Hok Hj e.
  assert (J : json_or_empty r = JObj []) by (unfold json_or_empty; now rewrite Hj).
  replace e with (server_error r (http_status_line r))
    by (unfold server_error, e; now rewrite J).
  apply built_error_is_delivered; [exact Hok|]. intros A.
  apply report_failure_falsy with None; [now rewrite J|reflexivity].
Qed.

(** C3, where the code departs from it: a failing response whose body is the
    JSON value [null] makes [errorData.message] throw a TypeError inside the
    [try]; the catch clause reclassifies it, and the caller receives a
    status-0 transport error instead of the response's status ([apiRequest]
    and [apiFormRequest]), or the TypeError itself ([generateReport]). *)
Theorem null_error_body_loses_status {rt : Runtime} (r : Response.t json) (t : Z) :
  400 <= Response.status r ->
  Response.json r = Done JNull ->
  (exists e, executors_reject r t e
             /\ status e = 0 /\ status e <> Response.status r)
  /\ (forall net file modelName modelVersion targetVariable sensitiveAttribute
        privilegedGroup unprivilegedGroup role,
        net (form_request "/api/v1/compliance/generate"
               (generateReport_formData file modelName modelVersion targetVariable
                  sensitiveAttribute privilegedGroup unprivilegedGroup role))
        = Responds t r ->
        generateReport net file modelName modelVersion targetVariable
          sensitiveAttribute privilegedGroup unprivilegedGroup role
        = Rejected (ThrowError (TypeError (null_read_message "message")))).
Proof.
  intros Hs Hj.
  pose proof (failing_status_not_ok r Hs) as Hok.
  split.
  - destruct (catch_platform_error (A := json)
                (TypeError (null_read_message "message"))) as (e & F & T).
    exists e. split.
    + apply executors_reject_intro. intros net request deadline E Ht.
      now rewrite (guarded_failing_status _ _ _ _ _ E Ht Hok),
        (report_failure_null r Hj).
    + assert (status e = 0) by (destruct T as [->|[->| ->]]; reflexivity).
      lia.
  - intros net file m v tv sa pg ug role E.
    rewrite (generateReport_failing_status _ _ _ _ _ _ _ _ _ _ _ E Hok).
    now apply report_failure_null.
Qed.

(** A 500 with the body [null] reaches the page as a status-0 error. *)
Lemma null_body_500_reported_as_status_0 :
  exists e,
    apiRequest (answers (Responds 120 null_body_500))
      "/api/v1/dashboard/summary" no_options
    = Rejected (ThrowApiError e)
    /\ status e = 0 /\ status e <> 500.
Proof.
  destruct (null_error_body_loses_status (rt := chrome) null_body_500 120)
    as ((e & (H & _) & S) & _); [simpl; lia|reflexivity|].
  exists e. split; [|exact S].
  apply (H (answers (Responds 120 null_body_500))
           "/api/v1/dashboard/summary" no_options); [reflexivity|lia].
Defined.




(** ** The catch clause and server-reported failures *)

(** C9: an ApiError built from a failing-status response passes through the
    catch clause of either executor unchanged, so the caller receives it with
    the response's status and never one of the status-0 forms in its place. *)
Theorem server_error_rethrown_unchanged {rt : Runtime} (r : Response.t json)
  (t : Z) (field : value) (e : ApiError) :
  Response.ok r = false ->
  get (json_or_empty r) "message" = Done field ->
  new_ApiError (logical_or field (Some (JStr (http_status_line r))))
    (Response.status r) (Some (json_or_empty r)) = Done e ->
  @apiRequest_catch rt json (ThrowApiError e) = Rejected (ThrowApiError e)
  /\ @apiFormRequest_catch rt json (ThrowApiError e) = Rejected (ThrowApiError e)
  /\ executors_reject r t e
  /\ status e = Response.status r.
Proof.
  intros Hok G N. split; [reflexivity|]. split; [reflexivity|]. split.
  - apply executors_reject_intro. intros net request deadline E Ht.
    rewrite (guarded_failing_status _ _ _ _ _ E Ht Hok).
    unfold report_failure. now rewrite G, N.
  - unfold new_ApiError in N. destruct (logical_or _ _) as [v|].
    + destruct (ToString v); [|discriminate]. now inversion N.
    + now inversion N.
Qed.

(** The 422 built by [apiFormRequest] is the one its caller catches. *)
Lemma detect_422_rethrown :
  apiFormRequest (answers (Responds 800 detect_422)) "/api/v1/bias/detect" []
  = Rejected (ThrowApiError (server_error detect_422 "missing column"))
  /\ status (server_error detect_422 "missing column") = 422.
Proof.
  destruct (server_error_rethrown_unchanged (rt := chrome) detect_422 800
              (Some (JStr "missing column"))
              (server_error detect_422 "missing column"))
    as (_ & _ & (_ & F) & S); [reflexivity|reflexivity|reflexivity|].
  split; [apply F; [reflexivity|lia]|exact S].
Defined.

(** ** Success responses *)




(** C6: a JSON-mode call that receives, within its deadline, a response with
    a success status and a parseable body is fulfilled with exactly the
    decoded body; so a 200 answer to get-summary whose body has
    [total_models_audited] equal to some number yields a summary with that
    same number there. *)
Theorem json_success_payload {rt : Runtime} (net : Network) (endpoint : string)
  (options : RequestInit) (t : Z) (r : Response.t json) (payload : json) :
  net (json_request endpoint options) = Responds t r ->
  t < 10000 ->
  Response.ok r = true ->
  Response.json r = Done payload ->
  apiRequest net endpoint options = Fulfilled payload
  /\ (endpoint = "/api/v1/dashboard/summary" -> options = no_options ->
      forall n, get payload "total_models_audited" = Done (Some (JNum n)) ->
        exists summary, getSummary net = Fulfilled summary
          /\ get summary "total_models_audited" = Done (Some (JNum n))).
Proof.
  intros E Ht Hok Hj.
  assert (F : apiRequest net endpoint options = Fulfilled payload).
  { now rewrite apiRequest_guarded, (guarded_success _ _ _ _ _ E Ht Hok), Hj. }
  split; [exact F|].
  intros -> -> n Hn. exists payload. now split.
Qed.

(** The spec's scenario: twelve models audited. *)
Lemma summary_200_total_is_12 :
  exists summary,
    getSummary (answers (Responds 120 summary_200)) = Fulfilled summary
    /\ get summary "total_models_audited" = Done (Some (JNum (rt := chrome) 12)).
Proof.
  destruct (json_success_payload (rt := chrome)
              (answers (Responds 120 summary_200))
              "/api/v1/dashboard/summary" no_options 120 summary_200
              summary_body)
    as (_ & H); [reflexivity|lia|reflexivity|reflexivity|].
  apply (H eq_refl eq_refl 12). reflexivity.
Defined.

(** ** Classification of transport failures *)

(** C8: classification looks at nothing but the error's name and message:
    two transport failures with the same name and message, classified by
    either catch clause, give ApiErrors with the same status and message. *)
Theorem classification_is_deterministic {rt : Runtime} (err1 err2 : Error.t) :
  Error.name err1 = Error.name err2 ->
  Error.message err1 = Error.message err2 ->
  exists e1 e2,
    @apiRequest_catch rt json (ThrowError err1) = Rejected (ThrowApiError e1)
    /\ @apiRequest_catch rt json (ThrowError err2) = Rejected (ThrowApiError e2)
    /\ @apiFormRequest_catch rt json (ThrowError err1) = Rejected (ThrowApiError e1)
    /\ @apiFormRequest_catch rt json (ThrowError err2) = Rejected (ThrowApiError e2)
    /\ status e1 = status e2
    /\ message e1 = message e2.
Proof.
  intros Hn Hm.
  destruct (catch_platform_error (A := json) err1) as (e1 & F1 & _).
  exists e1, e1. repeat apply conj; try reflexivity; try exact F1.
  - rewrite <- F1. unfold apiRequest_catch. now rewrite Hn, Hm.
  - rewrite catch_clauses_agree, <- F1. unfold apiRequest_catch.
    now rewrite Hn, Hm.
Qed.

(** The same refusal met twice, with different stacks. *)
Lemma failed_to_fetch_twice :
  exists e1 e2,
    apiRequest_catch (A := json) (ThrowError failed_to_fetch)
    = Rejected (ThrowApiError e1)
    /\ apiRequest_catch (A := json) (ThrowError failed_to_fetch_again)
       = Rejected (ThrowApiError e2)
    /\ apiFormRequest_catch (A := json) (ThrowError failed_to_fetch)
       = Rejected (ThrowApiError e1)
    /\ apiFormRequest_catch (A := json) (ThrowError failed_to_fetch_again)
       = Rejected (ThrowApiError e2)
    /\ status e1 = status e2
    /\ message e1 = message e2.
Proof.
  apply (classification_is_deterministic (rt := chrome)
           failed_to_fetch failed_to_fetch_again); reflexivity.
Defined.

(** The same at the level of calls: two guarded calls whose network fails,
    before the deadline, with errors of the same name and message settle
    alike, whichever executor made them. *)
Lemma same_failure_same_outcome {rt : Runtime} (net1 net2 : Network)
  (request1 request2 : Request) (deadline1 deadline2 t1 t2 : Z)
  (err1 err2 : Error.t) :
  net1 request1 = Breaks t1 err1 -> t1 < deadline1 ->
  net2 request2 = Breaks t2 err2 -> t2 < deadline2 ->
  Error.name err1 = Error.name err2 ->
  Error.message err1 = Error.message err2 ->
  guarded net1 request1 deadline1 = guarded net2 request2 deadline2.
Proof.
  intros E1 H1 E2 H2 Hn Hm.
  rewrite (guarded_breaks _ _ _ _ _ E1 H1), (guarded_breaks _ _ _ _ _ E2 H2).
  unfold apiRequest_catch. now rewrite Hn, Hm.
Qed.

(** ** Multipart forms *)

(** The form an operation builds is the body of the request it sends. *)
Lemma detect_sends_its_form {rt : Runtime} (net : Network) (file : File)
  (modelName modelVersion targetVariable sensitiveAttribute
   privilegedGroup unprivilegedGroup : string) :
  detect net file modelName modelVersion targetVariable sensitiveAttribute
    privilegedGroup unprivilegedGroup
  = guarded net
      {| url := API_BASE_URL ++ "/api/v1/bias/detect"; method := "POST";
         headers := [];
         body := Some (detect_formData file modelName modelVersion
                         targetVariable sensitiveAttribute privilegedGroup
                         unprivilegedGroup) |}
      30000.
Proof. unfold detect. now rewrite apiFormRequest_guarded. Qed.

Lemma explain_sends_its_form {rt : Runtime} (net : Network) (file : File)
  (modelName modelVersion targetVariable sensitiveAttribute : string)
  (instanceIndex : number) (role : string) :
  explain net file modelName modelVersion targetVariable sensitiveAttribute
    instanceIndex role
  = guarded net
      {| url := API_BASE_URL ++ "/api/v1/explain"; method := "POST";
         headers := [];
         body := Some (explain_formData file modelName modelVersion
                         targetVariable sensitiveAttribute instanceIndex
                         role) |}
      30000.
Proof. unfold explain. now rewrite apiFormRequest_guarded. Qed.

(** C5 as amended: detect-bias builds exactly the seven fields file,
    model_name, model_version, target_variable, sensitive_attribute,
    privileged_group, unprivileged_group, in that order, the scalars as the
    given strings; explain builds exactly its seven fields in declared order,
    with instance_index converted by Number's toString, which is the decimal
    numeral of the given integer whenever that integer is a safe one
    (at most 2^53 - 1 in absolute value). *)
Theorem multipart_forms (file : File)
  (modelName modelVersion targetVariable sensitiveAttribute
   privilegedGroup unprivilegedGroup role : string) :
  detect_formData file modelName modelVersion targetVariable
    sensitiveAttribute privilegedGroup unprivilegedGroup
  = [ ("file", FileEntry file);
      ("model_name", StringEntry modelName);
      ("model_version", StringEntry modelVersion);
      ("target_variable", StringEntry targetVariable);
      ("sensitive_attribute", StringEntry sensitiveAttribute);
      ("privileged_group", StringEntry privilegedGroup);
      ("unprivileged_group", StringEntry unprivilegedGroup) ]
  /\ (forall (rt : Runtime) (instanceIndex : number),
        explain_formData file modelName modelVersion targetVariable
          sensitiveAttribute instanceIndex role
        = [ ("file", FileEntry file);
            ("model_name", StringEntry modelName);
            ("model_version", StringEntry modelVersion);
            ("target_variable", StringEntry targetVariable);
            ("sensitive_attribute", StringEntry sensitiveAttribute);
            ("instance_index", StringEntry (number_toString instanceIndex));
            ("role", StringEntry role) ])
  /\ (forall instanceIndex : Z,
        Z.abs instanceIndex <= F64.MAX_SAFE_INTEGER ->
        explain_formData (rt := chrome) file modelName modelVersion
          targetVariable sensitiveAttribute instanceIndex role
        = [ ("file", FileEntry file);
            ("model_name", StringEntry modelName);
            ("model_version", StringEntry modelVersion);
            ("target_variable", StringEntry targetVariable);
            ("sensitive_attribute", StringEntry sensitiveAttribute);
            ("instance_index", StringEntry (Str.decimal instanceIndex));
            ("role", StringEntry role) ]).
Proof.
  repeat apply conj; try reflexivity.
  intros instanceIndex Hsafe.
  unfold explain_formData, FormData.append, FormData.new. cbn [app].
  cbn [number_toString chrome].
  now rewrite (F64Facts.toString_safe instanceIndex Hsafe).
Qed.

(** Instance 42 is sent as "42". *)
Lemma explain_form_for_instance_42 :
  explain_formData (rt := chrome) a_file "m1" "1.0" "hired" "gender" 42 "executive"
  = [ ("file", FileEntry a_file);
      ("model_name", StringEntry "m1");
      ("model_version", StringEntry "1.0");
      ("target_variable", StringEntry "hired");
      ("sensitive_attribute", StringEntry "gender");
      ("instance_index", StringEntry "42");
      ("role", StringEntry "executive") ].
Proof.
  destruct (multipart_forms a_file "m1" "1.0" "hired" "gender" "Male" "Female"
              "executive") as (_ & _ & H).
  apply (H 42). unfold F64.MAX_SAFE_INTEGER. simpl. lia.
Defined.

(** C5 as stated fails: the integer 10^21 is a Number, and its toString is
    in exponent form, not its decimal numeral. *)
Lemma large_instance_index_is_not_decimal :
  nth_error
    (explain_formData (rt := chrome) a_file "m1" "1.0" "hired" "gender"
       (10 ^ 21) "executive") 5
  = Some ("instance_index", StringEntry "1e+21")
  /\ Str.decimal (10 ^ 21) = "1000000000000000000000"
  /\ "1e+21" <> Str.decimal (10 ^ 21).
Proof.
  split; [vm_compute; reflexivity|].
  split; [vm_compute; reflexivity|].
  vm_compute. discriminate.
Qed.

(** ** The dashboard's aggregation *)

(** C7: the page uses the two results only when both calls are fulfilled;
    whenever either call is rejected, whichever settles first, the
    aggregate is rejected with the reason of one of them, and the page shows
    the fallback summary and no model risks: nothing of a call that did
    succeed is kept. *)
Theorem dashboard_all_or_nothing {rt : Runtime} (net : Network)
  (order : settle_order) (now : string) (st : DashboardState) :
  let both := Promise_all order (getSummary net) (getModelRisk net) in
  let final := fetchDashboardData net order now st in
  (forall summary risks,
     both = Fulfilled (summary, risks)
     <-> getSummary net = Fulfilled summary /\ getModelRisk net = Fulfilled risks)
  /\ (forall summary risks,
        getSummary net = Fulfilled summary -> getModelRisk net = Fulfilled risks ->
        dashboardData final = Some summary /\ modelRisks final = risks
        /\ toasts final = toasts st /\ loading final = false)
  /\ ((exists reason, getSummary net = Rejected reason)
      \/ (exists reason, getModelRisk net = Rejected reason) ->
      (exists reason, both = Rejected reason
         /\ (getSummary net = Rejected reason \/ getModelRisk net = Rejected reason))
      /\ dashboardData final = Some (fallbackSummary now)
      /\ modelRisks final = JArr []
      /\ loading final = false).
Proof.
  cbv zeta. unfold fetchDashboardData.
  destruct (getSummary net) as [s|rs]; destruct (getModelRisk net) as [m|rm];
    cbn [Promise_all]; (split; [|split]).
  all: try (intros summary risks; split;
            [ intros H; inversion H; now split
            | intros [A B]; inversion A; inversion B; reflexivity ]).
  all: try (intros summary risks A B; inversion A; inversion B; subst;
            now repeat split).
  all: try (intros summary risks; split;
            [ destruct order; discriminate | intros [A B]; discriminate ]).
  all: try (intros [[reason A]|[reason A]]; discriminate).
  all: intros _; (split; [|now destruct order]).
  - exists rm. split; [reflexivity|now right].
  - exists rs. split; [reflexivity|now left].
  - destruct order; [exists rs|exists rm]; split; try reflexivity; tauto.
Qed.

(** The summary arrives, the model-risk call is refused: the page shows the
    fallback summary, not the one that arrived. *)
Lemma dashboard_falls_back_when_model_risk_fails :
  getSummary only_summary_answers = Fulfilled summary_body
  /\ dashboardData
       (fetchDashboardData only_summary_answers FirstSettlesFirst
          "2025-01-01T00:00:00.000Z" initial_state)
     = Some (fallbackSummary "2025-01-01T00:00:00.000Z")
  /\ modelRisks
       (fetchDashboardData only_summary_answers FirstSettlesFirst
          "2025-01-01T00:00:00.000Z" initial_state)
     = JArr [].
Proof.
  destruct (dashboard_all_or_nothing (rt := chrome) only_summary_answers
              FirstSettlesFirst "2025-01-01T00:00:00.000Z" initial_state)
    as (_ & _ & H).
  destruct H as (_ & D & M & _).
  - right. exists (ThrowApiError connect_error). reflexivity.
  - split; [reflexivity|]. split; [exact D|exact M].
Defined.

(** ** More on the executors: what an outcome says about the network *)

Section ExecutorInversion.

Context {rt : Runtime}.

Lemma transport_form_status (e : ApiError) :
  transport_form e ->
  status e = 0 /\ response e = None
  /\ (message e = "Request timeout - server may be unavailable"
      \/ message e = "Network error - cannot connect to server"
      \/ message e = "Network error or server unavailable").
Proof. intros [->|[->| ->]]; cbn; tauto. Qed.

Lemma caught_is_never_fulfilled {A : Type} (error : thrown) (a : A) :
  apiRequest_catch error <> Fulfilled a.
Proof.
  destruct error as [e|err]; [discriminate|].
  destruct (catch_platform_error (A := A) err) as (e & F & _).
  rewrite F. discriminate.
Qed.

Lemma report_failure_never_fulfils {A : Type} (r : Response.t json) (a : A) :
  try_catch (report_failure r) apiRequest_catch <> Fulfilled a.
Proof.
  destruct (report_failure_outcome (A := A) r) as [(err & R)|(e & R & _)];
    rewrite R; cbn [try_catch]; [apply caught_is_never_fulfilled|discriminate].
Qed.

(** A guarded call is fulfilled only with the decoded body of a response
    that arrived before the deadline with a status in 200-299. *)
Lemma guarded_fulfilled_inv (net : Network) (request : Request) (deadline : Z)
  (payload : json) :
  guarded net request deadline = Fulfilled payload ->
  exists t r, net request = Responds t r /\ t < deadline
              /\ 200 <= Response.status r <= 299
              /\ Response.json r = Done payload.
Proof.
  intros F.
  destruct (Z_lt_le_dec (arrival (net request)) deadline) as [Ht|Ht].
  - destruct (net request) as [t r|t err] eqn:E; cbn [arrival] in Ht.
    + destruct (Response.ok r) eqn:Hok.
      * rewrite (guarded_success _ _ _ _ _ E Ht Hok) in F.
        exists t, r. repeat split; trivial.
        -- unfold Response.ok in Hok. apply andb_prop in Hok.
           destruct Hok as [H _]. now apply Z.leb_le in H.
        -- unfold Response.ok in Hok. apply andb_prop in Hok.
           destruct Hok as [_ H]. now apply Z.leb_le in H.
        -- destruct (Response.json r) as [v|err]; cbn [await try_catch] in F.
           ++ now inversion F.
           ++ now apply caught_is_never_fulfilled in F.
      * rewrite (guarded_failing_status _ _ _ _ _ E Ht Hok) in F.
        now apply report_failure_never_fulfils in F.
    + rewrite (guarded_breaks _ _ _ _ _ E Ht) in F.
      now apply caught_is_never_fulfilled in F.
  - rewrite (guarded_deadline _ _ _ Ht) in F. discriminate.
Qed.

(** A guarded call is rejected only with an ApiError: a status-0 one with
    one of the three fixed messages and no body, or one carrying the status
    and parsed body of a failing response that arrived before the
    deadline. *)
Lemma guarded_rejected_inv (net : Network) (request : Request) (deadline : Z)
  (reason : thrown) :
  guarded net request deadline = Rejected reason ->
  exists e, reason = ThrowApiError e
    /\ ((status e = 0 /\ response e = None
         /\ (message e = "Request timeout - server may be unavailable"
             \/ message e = "Network error - cannot connect to server"
             \/ message e = "Network error or server unavailable"))
        \/ (exists t r, net request = Responds t r /\ t < deadline
                        /\ Response.ok r = false
                        /\ status e = Response.status r
                        /\ response e = Some (json_or_empty r))).
Proof.
  intros F.
  assert (T : forall A (err : Error.t),
             @apiRequest_catch rt A (ThrowError err) = Rejected reason ->
             exists e, reason = ThrowApiError e
               /\ status e = 0 /\ response e = None
               /\ (message e = "Request timeout - server may be unavailable"
                   \/ message e = "Network error - cannot connect to server"
                   \/ message e = "Network error or server unavailable")).
  { intros A err C.
    destruct (catch_platform_error (A := A) err) as (e & G & TF).
    rewrite G in C. inversion C. exists e. split; [reflexivity|].
    now apply transport_form_status. }
  destruct (Z_lt_le_dec (arrival (net request)) deadline) as [Ht|Ht].
  - destruct (net request) as [t r|t err] eqn:E; cbn [arrival] in Ht.
    + destruct (Response.ok r) eqn:Hok.
      * rewrite (guarded_success _ _ _ _ _ E Ht Hok) in F.
        destruct (Response.json r) as [v|err]; cbn [await try_catch] in F;
          [discriminate|].
        destruct (T _ _ F) as (e & -> & S). exists e. split; [reflexivity|now left].
      * rewrite (guarded_failing_status _ _ _ _ _ E Ht Hok) in F.
        destruct (report_failure_outcome (A := json) r)
          as [(err & R)|(e & R & S1 & S2)]; rewrite R in F; cbn [try_catch] in F.
        -- destruct (T _ _ F) as (e & -> & S). exists e.
           split; [reflexivity|now left].
        -- inversion F. exists e. split; [reflexivity|]. right.
           exists t, r. repeat split; assumption.
    + rewrite (guarded_breaks _ _ _ _ _ E Ht) in F.
      destruct (T _ _ F) as (e & -> & S). exists e. split; [reflexivity|now left].
  - rewrite (guarded_deadline _ _ _ Ht) in F. inversion F.
    exists timeout_error. split; [reflexivity|]. left. cbn. tauto.
Qed.

(** Among the ApiErrors a guarded call rejects with, the transport forms are
    exactly those without a body, and, when no response to the request can
    have the status 0 itself, exactly those with status 0. *)
Lemma guarded_transport_iff (net : Network) (request : Request) (deadline : Z)
  (e : ApiError) :
  guarded net request deadline = Rejected (ThrowApiError e) ->
  (response e = None <-> transport_form e)
  /\ ((forall t r, net request = Responds t r -> Response.status r <> 0) ->
      (status e = 0 <-> transport_form e)).
Proof.
  intros F. apply guarded_rejected_inv in F.
  destruct F as (e' & [= <-] & [(S & B & M)|(t & r & E & _ & _ & S & B)]).
  - assert (T : transport_form e).
    { destruct e as [m s b]. cbn in S, B, M. subst s b. unfold transport_form,
        timeout_error, connect_error, unavailable_error.
      destruct M as [->|[->| ->]]; tauto. }
    split; [tauto|]. intros _. tauto.
  - split.
    + split; [intros N; rewrite N in B; discriminate B|].
      intros T. apply transport_form_status in T. destruct T as (_ & N & _).
      rewrite N in B. discriminate B.
    + intros NZ. specialize (NZ t r E). split.
      * intros Z0. rewrite Z0 in S. now symmetry in S.
      * intros T. apply transport_form_status in T. destruct T as (Z0 & _).
        rewrite Z0 in S. now symmetry in S.
Qed.

End ExecutorInversion.

(** X1: a call through either executor is fulfilled only when a response
    with a status in 200-299 arrived before the executor's deadline, and
    then with that response's decoded body: no payload is ever made up, and
    a failing or late response never yields one. *)
Theorem executors_fulfil_only_on_success {rt : Runtime} (net : Network) :
  (forall endpoint options payload,
     apiRequest net endpoint options = Fulfilled payload ->
     exists t r, net (json_request endpoint options) = Responds t r
                 /\ t < 10000 /\ 200 <= Response.status r <= 299
                 /\ Response.json r = Done payload)
  /\ (forall endpoint formData payload,
        apiFormRequest net endpoint formData = Fulfilled payload ->
        exists t r, net (form_request endpoint formData) = Responds t r
                    /\ t < 30000 /\ 200 <= Response.status r <= 299
                    /\ Response.json r = Done payload).
Proof.
  split.
  - intros endpoint options payload. rewrite apiRequest_guarded.
    apply guarded_fulfilled_inv.
  - intros endpoint formData payload. rewrite apiFormRequest_guarded.
    apply guarded_fulfilled_inv.
Qed.

(** The fulfilled summary call had a 200 behind it. *)
Lemma fulfilled_summary_had_a_response :
  exists t r,
    answers (Responds 120 summary_200)
      (json_request "/api/v1/dashboard/summary" no_options) = Responds t r
    /\ t < 10000 /\ 200 <= Response.status r <= 299
    /\ Response.json r = Done summary_body.
Proof.
  destruct (executors_fulfil_only_on_success (rt := chrome)
              (answers (Responds 120 summary_200))) as (H & _).
  apply (H "/api/v1/dashboard/summary" no_options summary_body).
  reflexivity.
Defined.

(** X2: a call through either executor is rejected only with an ApiError,
    never with a platform error.  The ApiError is either one of the three
    transport errors (status 0, no body, one of the three fixed messages) or
    carries the status and the parsed body of a failing response that did
    arrive before the deadline.  It is a transport error exactly when it has
    no body, and, provided no response to the request has the status 0
    itself, exactly when its status is 0. *)
Theorem executors_reject_only_with_ApiError {rt : Runtime} (net : Network) :
  (forall endpoint options reason,
     apiRequest net endpoint options = Rejected reason ->
     exists e, reason = ThrowApiError e
       /\ ((status e = 0 /\ response e = None
            /\ (message e = "Request timeout - server may be unavailable"
                \/ message e = "Network error - cannot connect to server"
                \/ message e = "Network error or server unavailable"))
           \/ (exists t r,
                 net (json_request endpoint options) = Responds t r
                 /\ t < 10000 /\ Response.ok r = false
                 /\ status e = Response.status r
                 /\ response e = Some (json_or_empty r)))
       /\ (response e = None <-> transport_form e)
       /\ ((forall t r, net (json_request endpoint options) = Responds t r ->
                        Response.status r <> 0) ->
           (status e = 0 <-> transport_form e)))
  /\ (forall endpoint formData reason,
        apiFormRequest net endpoint formData = Rejected reason ->
        exists e, reason = ThrowApiError e
          /\ ((status e = 0 /\ response e = None
               /\ (message e = "Request timeout - server may be unavailable"
                   \/ message e = "Network error - cannot connect to server"
                   \/ message e = "Network error or server unavailable"))
              \/ (exists t r,
                    net (form_request endpoint formData) = Responds t r
                    /\ t < 30000 /\ Response.ok r = false
                    /\ status e = Response.status r
                    /\ response e = Some (json_or_empty r)))
          /\ (response e = None <-> transport_form e)
          /\ ((forall t r, net (form_request endpoint formData) = Responds t r ->
                           Response.status r <> 0) ->
              (status e = 0 <-> transport_form e))).
Proof.
  split.
  - intros endpoint options reason. rewrite apiRequest_guarded. intros F.
    destruct (guarded_rejected_inv _ _ _ _ F) as (e & -> & D).
    exists e. split; [reflexivity|]. split; [exact D|].
    exact (guarded_transport_iff _ _ _ _ F).
  - intros endpoint formData reason. rewrite apiFormRequest_guarded. intros F.
    destruct (guarded_rejected_inv _ _ _ _ F) as (e & -> & D).
    exists e. split; [reflexivity|]. split; [exact D|].
    exact (guarded_transport_iff _ _ _ _ F).
Qed.

(** The rejected detect call of the 422 scenario: its error has a body and
    the status 422, so it is none of the transport errors. *)
Lemma rejected_detect_had_a_422 :
  exists e,
    ThrowApiError (server_error detect_422 "missing column") = ThrowApiError e
    /\ ((status e = 0 /\ response e = None
         /\ (message e = "Request timeout - server may be unavailable"
             \/ message e = "Network error - cannot connect to server"
             \/ message e = "Network error or server unavailable"))
        \/ (exists t r,
              answers (Responds 800 detect_422)
                (form_request "/api/v1/bias/detect" []) = Responds t r
              /\ t < 30000 /\ Response.ok r = false
              /\ status e = Response.status r
              /\ response e = Some (json_or_empty r)))
    /\ (response e = None <-> transport_form e)
    /\ ((forall t r,
           answers (Responds 800 detect_422)
             (form_request "/api/v1/bias/detect" []) = Responds t r ->
           Response.status r <> 0) ->
        (status e = 0 <-> transport_form e)).
Proof.
  destruct (executors_reject_only_with_ApiError (rt := chrome)
              (answers (Responds 800 detect_422))) as (_ & H).
  apply (H "/api/v1/bias/detect" []). reflexivity.
Defined.

(** X3: the three dashboard reads give up after 10 seconds and the two
    uploads through the form executor after 30: whatever the network does
    at or after the deadline (an answer of any status, or a failure), the
    operation is rejected with the timeout error. *)
Theorem catalog_deadlines {rt : Runtime} (net : Network) :
  (10000 <= arrival (net (json_request "/api/v1/dashboard/summary" no_options)) ->
   getSummary net = Rejected (ThrowApiError timeout_error))
  /\ (10000 <= arrival (net (json_request "/api/v1/dashboard/model_risk" no_options)) ->
      getModelRisk net = Rejected (ThrowApiError timeout_error))
  /\ (10000 <= arrival
                 (net (json_request "/api/v1/dashboard/compliance_trend" no_options)) ->
      getComplianceTrend net = Rejected (ThrowApiError timeout_error))
  /\ (forall file modelName modelVersion targetVariable sensitiveAttribute
        privilegedGroup unprivilegedGroup,
        30000 <= arrival
                   (net (form_request "/api/v1/bias/detect"
                           (detect_formData file modelName modelVersion
                              targetVariable sensitiveAttribute privilegedGroup
                              unprivilegedGroup))) ->
        detect net file modelName modelVersion targetVariable
          sensitiveAttribute privilegedGroup unprivilegedGroup
        = Rejected (ThrowApiError timeout_error))
  /\ (forall file modelName modelVersion targetVariable sensitiveAttribute
        (instanceIndex : number) role,
        30000 <= arrival
                   (net (form_request "/api/v1/explain"
                           (explain_formData file modelName modelVersion
                              targetVariable sensitiveAttribute instanceIndex
                              role))) ->
        explain net file modelName modelVersion targetVariable
          sensitiveAttribute instanceIndex role
        = Rejected (ThrowApiError timeout_error)).
Proof.
  repeat apply conj; intros; first [apply apiRequest_deadline
                                   |apply apiFormRequest_deadline]; assumption.
Qed.

(** A trend that answers at 10 s, an explanation that fails at 31 s. *)
Lemma slow_trend_and_explain_time_out :
  getComplianceTrend (answers (Responds 10000 summary_200))
  = Rejected (ThrowApiError timeout_error)
  /\ explain (rt := chrome) (answers (Breaks 31000 failed_to_fetch)) a_file
       "m1" "1.0" "hired" "gender" 3 "executive"
     = Rejected (ThrowApiError timeout_error).
Proof.
  destruct (catalog_deadlines (rt := chrome)
              (answers (Responds 10000 summary_200))) as (_ & _ & T & _).
  destruct (catalog_deadlines (rt := chrome)
              (answers (Breaks 31000 failed_to_fetch))) as (_ & _ & _ & _ & X).
  split.
  - apply T. simpl. lia.
  - apply (X a_file "m1" "1.0" "hired" "gender" 3 "executive"). simpl. lia.
Defined.

(** X4: a transport failure that is a TypeError is taken for a refused
    connection exactly when its message contains the word fetch; with any
    other message (Safari's "Load failed") the same refusal is reported by
    both executors as the generic unavailable error. *)
Theorem connectivity_is_recognised_by_message {rt : Runtime} (net : Network)
  (t : Z) (msg stack : string) :
  let refused :=
    {| Error.name := "TypeError"; Error.message := msg; Error.stack := stack |} in
  let expected :=
    if Str.includes msg "fetch" then connect_error else unavailable_error in
  (forall endpoint options,
     net (json_request endpoint options) = Breaks t refused -> t < 10000 ->
     apiRequest net endpoint options = Rejected (ThrowApiError expected))
  /\ (forall endpoint formData,
        net (form_request endpoint formData) = Breaks t refused -> t < 30000 ->
        apiFormRequest net endpoint formData = Rejected (ThrowApiError expected)).
Proof.
  cbv zeta.
  assert (G : forall request deadline,
             net request
             = Breaks t {| Error.name := "TypeError"; Error.message := msg;
                           Error.stack := stack |} ->
             t < deadline ->
             guarded net request deadline
             = Rejected (ThrowApiError
                           (if Str.includes msg "fetch" then connect_error
                            else unavailable_error))).
  { intros request deadline E Ht. rewrite (guarded_breaks _ _ _ _ _ E Ht).
    unfold apiRequest_catch. cbn [Error.name Error.message].
    now destruct (Str.includes msg "fetch"). }
  split.
  - intros endpoint options. rewrite apiRequest_guarded. apply G.
  - intros endpoint formData. rewrite apiFormRequest_guarded. apply G.
Qed.

(** Safari's wording of the refusal. *)
Lemma load_failed_is_generic :
  getSummary (answers (Breaks 12 (TypeError "Load failed")))
  = Rejected (ThrowApiError unavailable_error).
Proof.
  destruct (connectivity_is_recognised_by_message (rt := chrome)
              (answers (Breaks 12 (TypeError "Load failed"))) 12 "Load failed" "")
    as (H & _).
  apply (H "/api/v1/dashboard/summary" no_options); [reflexivity|lia].
Defined.

(** X5: each operation makes one request and no other use of the network:
    its outcome is the same under any two networks that answer that one
    request alike.  The reads are GETs with a JSON content type and no body;
    the uploads are POSTs carrying the form and no header of their own; all
    go to the configured base address followed by the fixed path, and the
    base is never empty. *)
Theorem one_request_per_operation {rt : Runtime} (net1 net2 : Network) :
  let read path :=
    {| url := API_BASE_URL ++ path; method := "GET";
       headers := [("Content-Type", "application/json")]; body := None |} in
  let upload path formData :=
    {| url := API_BASE_URL ++ path; method := "POST"; headers := [];
       body := Some formData |} in
  (net1 (read "/api/v1/dashboard/summary") = net2 (read "/api/v1/dashboard/summary") ->
   getSummary net1 = getSummary net2)
  /\ (net1 (read "/api/v1/dashboard/model_risk")
      = net2 (read "/api/v1/dashboard/model_risk") ->
      getModelRisk net1 = getModelRisk net2)
  /\ (net1 (read "/api/v1/dashboard/compliance_trend")
      = net2 (read "/api/v1/dashboard/compliance_trend") ->
      getComplianceTrend net1 = getComplianceTrend net2)
  /\ (forall file m v tv sa pg ug,
        net1 (upload "/api/v1/bias/detect" (detect_formData file m v tv sa pg ug))
        = net2 (upload "/api/v1/bias/detect" (detect_formData file m v tv sa pg ug)) ->
        detect net1 file m v tv sa pg ug = detect net2 file m v tv sa pg ug)
  /\ (forall file m v tv sa (idx : number) role,
        net1 (upload "/api/v1/explain" (explain_formData file m v tv sa idx role))
        = net2 (upload "/api/v1/explain" (explain_formData file m v tv sa idx role)) ->
        explain net1 file m v tv sa idx role = explain net2 file m v tv sa idx role)
  /\ (forall file m v tv sa pg ug role,
        net1 (upload "/api/v1/compliance/generate"
                (generateReport_formData file m v tv sa pg ug role))
        = net2 (upload "/api/v1/compliance/generate"
                  (generateReport_formData file m v tv sa pg ug role)) ->
        generateReport net1 file m v tv sa pg ug role
        = generateReport net2 file m v tv sa pg ug role)
  /\ API_BASE_URL <> "".
Proof.
  cbv zeta.
  assert (G : forall request deadline, net1 request = net2 request ->
                guarded net1 request deadline = guarded net2 request deadline).
  { intros request deadline E. unfold guarded, fetch. now rewrite E. }
  repeat apply conj.
  - intros E. unfold getSummary. rewrite !apiRequest_guarded. now apply G.
  - intros E. unfold getModelRisk. rewrite !apiRequest_guarded. now apply G.
  - intros E. unfold getComplianceTrend. rewrite !apiRequest_guarded. now apply G.
  - intros file m v tv sa pg ug E. unfold detect.
    rewrite !apiFormRequest_guarded. now apply G.
  - intros file m v tv sa idx role E. unfold explain.
    rewrite !apiFormRequest_guarded. now apply G.
  - intros file m v tv sa pg ug role E. unfold generateReport, fetch.
    unfold form_request. now rewrite E.
  - unfold API_BASE_URL. destruct VITE_API_BASE_URL as [configured|];
      [|discriminate].
    destruct (String.eqb_spec configured ""); [discriminate|assumption].
Qed.

(** Two networks that differ everywhere but on the summary request. *)
Lemma summary_ignores_the_rest_of_the_network :
  getSummary only_summary_answers
  = getSummary (answers (Responds 120 summary_200)).
Proof.
  destruct (one_request_per_operation (rt := chrome) only_summary_answers
              (answers (Responds 120 summary_200))) as (H & _).
  apply H. reflexivity.
Defined.

(** X6: what the report call can end with.  It is fulfilled exactly when a
    response with a success status arrives, however late, and its body can
    be read as a blob; the body is never parsed.  When it is rejected with
    an ApiError, that error carries the status and parsed body of a failing
    response, so it is never one of the three transport errors: transport
    failures come out as the platform's own error. *)
Theorem generateReport_outcomes {rt : Runtime} (net : Network) (file : File)
  (modelName modelVersion targetVariable sensitiveAttribute
   privilegedGroup unprivilegedGroup : string) (role : option string) :
  let request :=
    form_request "/api/v1/compliance/generate"
      (generateReport_formData file modelName modelVersion targetVariable
         sensitiveAttribute privilegedGroup unprivilegedGroup role) in
  let outcome :=
    generateReport net file modelName modelVersion targetVariable
      sensitiveAttribute privilegedGroup unprivilegedGroup role in
  (forall document,
     outcome = Fulfilled document
     <-> exists t r, net request = Responds t r /\ Response.ok r = true
                     /\ Response.blob r = Done document)
  /\ (forall e,
        outcome = Rejected (ThrowApiError e) ->
        (exists t r, net request = Responds t r /\ Response.ok r = false
                     /\ status e = Response.status r
                     /\ response e = Some (json_or_empty r))
        /\ ~ transport_form e)
  /\ (forall err,
        outcome = Rejected (ThrowError err) ->
        (exists t, net request = Breaks t err)
        \/ (exists t r, net request = Responds t r
                        /\ (Response.ok r = true /\ Response.blob r = Fails err
                            \/ Response.ok r = false))).
Proof.
  cbv zeta. unfold generateReport. rewrite fetch_without_signal.
  destruct (net _) as [t r|t err0] eqn:E; cbn [await bind].
  - destruct (Response.ok r) eqn:Hok; cbn [negb].
    + repeat apply conj.
      * intros document. split.
        -- intros F. exists t, r. repeat split; trivial.
           destruct (Response.blob r); cbn [await] in F; now inversion F.
        -- intros (t' & r' & [= <- <-] & _ & B). now rewrite B.
      * intros e F. destruct (Response.blob r); discriminate F.
      * intros err F. right. exists t, r. split; [reflexivity|]. left.
        split; [exact Hok|].
        destruct (Response.blob r); cbn [await] in F; now inversion F.
    + rewrite failing_branch.
      destruct (report_failure_outcome (A := Blob) r)
        as [(err1 & R)|(e1 & R & S1 & S2)]; rewrite R; repeat apply conj.
      * intros document. split; [discriminate|].
        intros (t' & r' & [= <- <-] & O & _). congruence.
      * intros e F. discriminate F.
      * intros err F. right. exists t, r. split; [reflexivity|now right].
      * intros document. split; [discriminate|].
        intros (t' & r' & [= <- <-] & O & _). congruence.
      * intros e [= <-]. split.
        -- exists t, r. repeat split; assumption.
        -- intros TF. apply transport_form_status in TF.
           destruct TF as (_ & N & _). congruence.
      * intros err F. discriminate F.
  - repeat apply conj.
    + intros document. split; [discriminate|].
      intros (t' & r' & D & _). discriminate D.
    + intros e F. discriminate F.
    + intros err [= <-]. left. now exists t.
Qed.

(** The late PDF of the deadline scenario, read the other way round. *)
Lemma late_report_had_a_success_response :
  exists t r,
    answers (Responds 45000 pdf_200)
      (form_request "/api/v1/compliance/generate"
         (generateReport_formData a_file "m1" "1.0" "hired" "gender" "Male"
            "Female" None))
    = Responds t r
    /\ Response.ok r = true
    /\ Response.blob r = Done [Byte.x25; Byte.x50; Byte.x44; Byte.x46].
Proof.
  destruct (generateReport_outcomes (rt := chrome)
              (answers (Responds 45000 pdf_200)) a_file
              "m1" "1.0" "hired" "gender" "Male" "Female" None) as (H & _).
  apply (H [Byte.x25; Byte.x50; Byte.x44; Byte.x46]). reflexivity.
Defined.

(** X7: when a response with an HTTP failure status has a body that is not
    valid JSON, all three functions reject with an ApiError that keeps the
    status, has the empty record as raw body, and says
    "HTTP <status in decimal>: <status text>". *)
Theorem unparseable_failure_keeps_status {rt : Runtime} (r : Response.t json)
  (t : Z) (err : Error.t) :
  300 <= Response.status r <= 599 ->
  Response.json r = Fails err ->
  let e :=
    {| message := "HTTP " ++ Str.decimal (Response.status r) ++ ": "
                  ++ Response.statusText r;
       status := Response.status r;
       response := Some (JObj []) |} in
  executors_reject r t e /\ generateReport_rejects r t e.
Proof.
  intros Hs Hj e.
  assert (Hok : Response.ok r = false).
  { unfold Response.ok. apply andb_false_iff. right. apply Z.leb_gt. lia. }
  pose proof (unparseable_error_body r t err Hok Hj) as U. cbv zeta in U.
  replace e with {| message := http_status_line r; status := Response.status r;
                    response := Some (JObj []) |}; [exact U|].
  unfold e, http_status_line.
  rewrite F64Facts.toString_safe; [reflexivity|].
  unfold F64.MAX_SAFE_INTEGER. assert (599 < 2 ^ 53 - 1) by reflexivity. lia.
Qed.

(** A 502 whose body is an HTML error page. *)
Lemma bad_gateway_with_html_body :
  getModelRisk
    (answers
       (Responds 40
          (response_of 502 "Bad Gateway"
             (Fails (SyntaxError "Unexpected token '<'")))))
  = Rejected
      (ThrowApiError
         {| message := "HTTP 502: Bad Gateway"; status := 502;
            response := Some (JObj []) |}).
Proof.
  destruct (unparseable_failure_keeps_status (rt := chrome)
              (response_of 502 "Bad Gateway"
                 (Fails (SyntaxError "Unexpected token '<'")))
              40 (SyntaxError "Unexpected token '<'"))
    as ((H & _) & _); [simpl; lia|reflexivity|].
  apply (H (answers
              (Responds 40
                 (response_of 502 "Bad Gateway"
                    (Fails (SyntaxError "Unexpected token '<'")))))
           "/api/v1/dashboard/model_risk" no_options); [reflexivity|lia].
Defined.

(** ** More on the dashboard *)

Section DashboardFacts.

Context {rt : Runtime}.


End DashboardFacts.


(** X9: what the dashboard shows after a load depends on that load alone,
    not on what it showed before: a refresh after a failure replaces the
    fallback data by whatever the new load gives, a refresh that fails
    replaces good data by the fallback.  Toasts only accumulate, at most one
    per load. *)
Theorem dashboard_refresh_forgets_the_past {rt : Runtime} (net1 net2 : Network)
  (order1 order2 : settle_order) (now1 now2 : string) (st : DashboardState) :
  let once := fetchDashboardData net2 order2 now2 st in
  let twice :=
    fetchDashboardData net2 order2 now2
      (fetchDashboardData net1 order1 now1 st) in
  dashboardData twice = dashboardData once
  /\ modelRisks twice = modelRisks once
  /\ loading twice = false
  /\ exists first second,
       toasts twice = (toasts st ++ first ++ second)%list
       /\ toasts once = (toasts st ++ second)%list
       /\ (List.length first <= 1)%nat /\ (List.length second <= 1)%nat.
Proof.
  cbv zeta. unfold fetchDashboardData.
  destruct (Promise_all order1 (getSummary net1) (getModelRisk net1))
    as [[s1 m1]|e1];
    destruct (Promise_all order2 (getSummary net2) (getModelRisk net2))
      as [[s2 m2]|e2]; cbn.
  all: repeat split.
  all: rewrite <- ?app_assoc.
  - exists [], []. cbn. rewrite app_nil_r. repeat split; lia.
  - eexists [], [_]. cbn. repeat split; lia.
  - eexists [_], []. cbn. rewrite app_nil_r. repeat split; lia.
  - eexists [_], [_]. cbn. repeat split; lia.
Qed.

(** X10: after a load the component's body never returns the loading
    skeleton.  It returns [null] at the guard [if (!dashboardData)], without
    any toast having been raised, exactly when both calls succeeded and the
    summary payload is a falsy value such as [null]; after a failed load it
    always passes both guards and goes on to the page markup.  The statement
    is about the two guards only, not about what evaluating the markup
    does. *)
Theorem dashboard_guards_after_load {rt : Runtime} (net : Network)
  (order : settle_order) (now : string) (st : DashboardState) :
  let final := fetchDashboardData net order now st in
  DashboardView.guards final <> DashboardView.Skeleton
  /\ (DashboardView.guards final = DashboardView.Null
      <-> exists summary risks,
            getSummary net = Fulfilled summary
            /\ getModelRisk net = Fulfilled risks
            /\ ToBoolean (Some summary) = false)
  /\ (DashboardView.guards final = DashboardView.Null ->
      toasts final = toasts st)
  /\ ((exists reason, getSummary net = Rejected reason)
      \/ (exists reason, getModelRisk net = Rejected reason) ->
      DashboardView.guards final = DashboardView.Markup).
Proof.
  cbv zeta. unfold fetchDashboardData, DashboardView.guards.
  destruct (getSummary net) as [s|rs]; destruct (getModelRisk net) as [m|rm];
    cbn [Promise_all].
  - cbn -[ToBoolean]. destruct (ToBoolean (Some s)) eqn:T; cbn -[ToBoolean];
      (split; [discriminate|]); (split; [|split]).
    + split; [discriminate|]. intros (s' & m' & [= <-] & _ & F). congruence.
    + discriminate.
    + intros [[x H]|[x H]]; discriminate H.
    + split; [intros _; now exists s, m|reflexivity].
    + reflexivity.
    + intros [[x H]|[x H]]; discriminate H.
  - cbn. (split; [discriminate|]); (split; [|split]).
    + split; [discriminate|]. intros (s' & m' & _ & H & _). discriminate H.
    + discriminate.
    + reflexivity.
  - cbn. (split; [discriminate|]); (split; [|split]).
    + split; [discriminate|]. intros (s' & m' & H & _). discriminate H.
    + discriminate.
    + reflexivity.
  - destruct order; cbn; (split; [discriminate|]); (split; [|split]);
      try discriminate; try reflexivity;
      (split; [discriminate|]); intros (s' & m' & H & _); discriminate H.
Qed.

(** The summary endpoint answers 200 with the body [null]. *)
Lemma null_summary_returns_null :
  DashboardView.guards
    (fetchDashboardData
       (answers (Responds 120 (response_of 200 "OK" (Done JNull))))
       FirstSettlesFirst "2025-01-01T00:00:00.000Z" initial_state)
  = DashboardView.Null.
Proof.
  destruct (dashboard_guards_after_load (rt := chrome)
              (answers (Responds 120 (response_of 200 "OK" (Done JNull))))
              FirstSettlesFirst "2025-01-01T00:00:00.000Z" initial_state)
    as (_ & H & _).
  apply H. exists JNull, JNull. repeat split.
Defined.

(** X11: the risk colour of a row in the dashboard's table is the colour the
    gauge gives the same score, and the gauge's level, colour and advice
    always belong together; a score that is not a number is shown as
    critical by both. *)
Theorem risk_colours_agree (score : JsNumber.t) :
  DashboardView.getRiskColor score
  = RiskGauge.color (RiskGauge.getRiskLevel score)
  /\ (RiskGauge.level (RiskGauge.getRiskLevel score) = "Low"
      <-> RiskGauge.advice score = "Models are compliant")
  /\ (RiskGauge.level (RiskGauge.getRiskLevel score) = "Medium"
      <-> RiskGauge.advice score = "Monitor closely")
  /\ (RiskGauge.level (RiskGauge.getRiskLevel score) = "High"
      <-> RiskGauge.advice score = "Immediate attention needed")
  /\ (RiskGauge.level (RiskGauge.getRiskLevel score) = "Critical"
      <-> RiskGauge.advice score = "Critical intervention required")
  /\ DashboardView.getRiskColor JsNumber.NaN = "text-risk-critical"
  /\ RiskGauge.level (RiskGauge.getRiskLevel JsNumber.NaN) = "Critical".
Proof.
  unfold DashboardView.getRiskColor, RiskGauge.getRiskLevel, RiskGauge.advice.
  destruct (JsNumber.le_int score 30); [|destruct (JsNumber.le_int score 60);
    [|destruct (JsNumber.le_int score 85)]]; cbn;
    repeat apply conj; try reflexivity;
    first [intros H; discriminate H | intros _; reflexivity].
Qed.

(** ** The bias-detection page *)

Section BiasDetectionFacts.

Context {rt : Runtime}.

Import BiasDetection.

(** The loop stops at the first field that is not filled in. *)
Lemma check_fields_stops (before after : list string) (field : string)
  (st : State) :
  forallb (field_filled st) before = true ->
  field_filled st field = false ->
  check_fields (before ++ field :: after)%list st
  = (false,
     toast {| Notice.title := "Missing required field";
              Notice.description :=
                "Please fill in " ++ JsString.replace field "_" " ";
              Notice.variant := Some "destructive" |} st).
Proof.
  intros B F. induction before as [|b before IH]; cbn [app check_fields].
  - fold (field_filled st field). now rewrite F.
  - cbn [forallb] in B. apply andb_prop in B. destruct B as [Hb B].
    fold (field_filled st b). rewrite Hb. cbn [negb]. now apply IH.
Qed.

Lemma check_fields_passes (fields : list string) (st : State) :
  forallb (field_filled st) fields = true ->
  check_fields fields st = (true, st).
Proof.
  induction fields as [|b fields IH]; intros B; [reflexivity|].
  cbn [forallb] in B. apply andb_prop in B. destruct B as [Hb B].
  cbn [check_fields]. fold (field_filled st b). rewrite Hb. cbn [negb].
  now apply IH.
Qed.

(** The loop either passes, leaving the state alone, or adds one toast. *)
Lemma check_fields_outcome (fields : list string) (st : State) :
  (check_fields fields st = (true, st)
   /\ forallb (field_filled st) fields = true)
  \/ (exists n, check_fields fields st = (false, toast n st)
                /\ Notice.variant n = Some "destructive"
                /\ forallb (field_filled st) fields = false).
Proof.
  induction fields as [|b fields IH]; [now left|].
  cbn [check_fields forallb]. fold (field_filled st b).
  destruct (field_filled st b); cbn [negb andb].
  - exact IH.
  - right. eexists. repeat split.
Qed.

Lemma complete_fields (st : State) :
  complete (form st)
  = match file (form st) with Some _ => true | None => false end
    && forallb (field_filled st) requiredFields.
Proof.
  unfold complete, requiredFields, field_filled, text_field. cbn.
  now rewrite andb_true_r, !andb_assoc.
Qed.

Lemma validateForm_outcome (st : State) :
  (validateForm st = (true, st) /\ complete (form st) = true
   /\ exists csv, file (form st) = Some csv)
  \/ (exists n, validateForm st = (false, toast n st)
                /\ Notice.variant n = Some "destructive"
                /\ complete (form st) = false).
Proof.
  rewrite complete_fields. unfold validateForm.
  destruct (file (form st)) as [csv|].
  - destruct (check_fields_outcome requiredFields st) as [(C & F)|(n & C & V & F)].
    + left. rewrite C, F. repeat split. now exists csv.
    + right. exists n. now rewrite C, F.
  - right. eexists. repeat split.
Qed.

End BiasDetectionFacts.

(** X12: the bias-detection page accepts a form exactly when a file is
    attached and none of the six text fields is empty, and then changes
    nothing.  Otherwise it raises exactly one destructive toast: "File
    required" when the file is missing, whatever the fields hold, and else
    "Please fill in ..." naming the first empty field in the order model
    name, model version, target variable, sensitive attribute, privileged
    group, unprivileged group, with the underscore shown as a space. *)
Theorem BiasDetection_validateForm_spec {rt : Runtime} (st : BiasDetection.State) :
  (fst (BiasDetection.validateForm st)
   = BiasDetection.complete (BiasDetection.form st))
  /\ (BiasDetection.complete (BiasDetection.form st) = true ->
      BiasDetection.validateForm st = (true, st))
  /\ (BiasDetection.complete (BiasDetection.form st) = false ->
      exists n,
        BiasDetection.validateForm st = (false, BiasDetection.toast n st)
        /\ Notice.variant n = Some "destructive")
  /\ (BiasDetection.file (BiasDetection.form st) = None ->
      BiasDetection.validateForm st
      = (false,
         BiasDetection.toast
           {| Notice.title := "File required";
              Notice.description := "Please upload a CSV file";
              Notice.variant := Some "destructive" |} st))
  /\ (forall csv before field after,
        BiasDetection.file (BiasDetection.form st) = Some csv ->
        BiasDetection.requiredFields = (before ++ field :: after)%list ->
        forallb (BiasDetection.field_filled st) before = true ->
        BiasDetection.field_filled st field = false ->
        BiasDetection.validateForm st
        = (false,
           BiasDetection.toast
             {| Notice.title := "Missing required field";
                Notice.description :=
                  "Please fill in " ++ JsString.replace field "_" " ";
                Notice.variant := Some "destructive" |} st)).
Proof.
  repeat apply conj.
  - destruct (validateForm_outcome st) as [(V & C & _)|(n & V & _ & C)];
      now rewrite V, C.
  - intros C. destruct (validateForm_outcome st) as [(V & _)|(n & _ & _ & C')];
      [exact V|congruence].
  - intros C. destruct (validateForm_outcome st) as [(_ & C' & _)|(n & V & D & _)];
      [congruence|now exists n].
  - intros F. unfold BiasDetection.validateForm. now rewrite F.
  - intros csv before field after F R B E.
    unfold BiasDetection.validateForm. rewrite F, R.
    now apply check_fields_stops.
Qed.

(** A form whose sensitive attribute was cleared. *)
Lemma unfinished_form_names_the_sensitive_attribute :
  BiasDetection.validateForm bias_unfinished
  = (false,
     BiasDetection.toast
       {| Notice.title := "Missing required field";
          Notice.description := "Please fill in sensitive attribute";
          Notice.variant := Some "destructive" |} bias_unfinished).
Proof.
  destruct (BiasDetection_validateForm_spec (rt := chrome) bias_unfinished)
    as (_ & _ & _ & _ & H).
  apply (H hiring_csv ["model_name"; "model_version"; "target_variable"]
           "sensitive_attribute" ["privileged_group"; "unprivileged_group"]);
    reflexivity.
Defined.

Section BiasDetectionSubmit.

Context {rt : Runtime}.

Import BiasDetection.

(** [handleSubmit] on a complete form, with the file named. *)
Lemma handleSubmit_complete (net : Network) (st : State) (csv : File) :
  complete (form st) = true ->
  file (form st) = Some csv ->
  handleSubmit net st
  = setLoading false
      (match
         detect net csv (model_name (form st)) (model_version (form st))
           (target_variable (form st)) (sensitive_attribute (form st))
           (privileged_group (form st)) (unprivileged_group (form st))
       with
       | Fulfilled payload =>
           let st1 :=
             setResult payload
               (log (ConsoleLog "Bias detection API response:" payload)
                  (setLoading true st)) in
           match completed_text payload with
           | Done text =>
               toast {| Notice.title := "Bias detection completed";
                        Notice.description := text;
                        Notice.variant := None |} st1
           | Fails e => handleSubmit_catch (ThrowError e) st1
           end
       | Rejected error => handleSubmit_catch error (setLoading true st)
       end).
Proof.
  intros C F. unfold handleSubmit.
  destruct (validateForm_outcome st) as [(V & _)|(n & _ & _ & C')];
    [|congruence].
  rewrite V, F. reflexivity.
Qed.

Lemma handleSubmit_incomplete (net : Network) (st : State) :
  complete (form st) = false ->
  handleSubmit net st = snd (validateForm st)
  /\ exists n, handleSubmit net st = toast n st
               /\ Notice.variant n = Some "destructive".
Proof.
  intros C. unfold handleSubmit.
  destruct (validateForm_outcome st) as [(_ & C' & _)|(n & V & D & _)];
    [congruence|].
  rewrite V. split; [reflexivity|]. now exists n.
Qed.

(** [detect] and [generateReport] look at the network's answer to their one
    request only. *)
Lemma detect_one_answer (net1 net2 : Network) (csv : File)
  (m v tv sa pg ug : string) :
  net1 (form_request "/api/v1/bias/detect" (detect_formData csv m v tv sa pg ug))
  = net2 (form_request "/api/v1/bias/detect" (detect_formData csv m v tv sa pg ug)) ->
  detect net1 csv m v tv sa pg ug = detect net2 csv m v tv sa pg ug.
Proof.
  intros E. unfold detect. rewrite !apiFormRequest_guarded.
  unfold guarded, fetch. now rewrite E.
Qed.

Lemma generateReport_one_answer (net1 net2 : Network) (csv : File)
  (m v tv sa pg ug : string) (r : option string) :
  net1 (form_request "/api/v1/compliance/generate"
          (generateReport_formData csv m v tv sa pg ug r))
  = net2 (form_request "/api/v1/compliance/generate"
            (generateReport_formData csv m v tv sa pg ug r)) ->
  generateReport net1 csv m v tv sa pg ug r
  = generateReport net2 csv m v tv sa pg ug r.
Proof.
  intros E. unfold generateReport, fetch. now rewrite E.
Qed.

Lemma complete_has_file (f : BiasDetectionForm) :
  complete f = true -> exists csv, file f = Some csv.
Proof.
  unfold complete. destruct (file f) as [csv|]; [now exists csv|discriminate].
Qed.

End BiasDetectionSubmit.

(** X13: pressing "Run Bias Detection" on an incomplete form sends nothing:
    the outcome is the same under every network, and all that changes is the
    one validation toast; the result shown, the form, the loading flag and
    the console stay as they were. *)
Theorem BiasDetection_incomplete_form_sends_nothing {rt : Runtime}
  (net1 net2 : Network) (st : BiasDetection.State) :
  BiasDetection.complete (BiasDetection.form st) = false ->
  BiasDetection.handleSubmit net1 st = BiasDetection.handleSubmit net2 st
  /\ exists n,
       BiasDetection.handleSubmit net1 st = BiasDetection.toast n st
       /\ Notice.variant n = Some "destructive"
       /\ BiasDetection.result (BiasDetection.handleSubmit net1 st)
          = BiasDetection.result st
       /\ BiasDetection.form (BiasDetection.handleSubmit net1 st)
          = BiasDetection.form st
       /\ BiasDetection.loading (BiasDetection.handleSubmit net1 st)
          = BiasDetection.loading st
       /\ BiasDetection.console (BiasDetection.handleSubmit net1 st)
          = BiasDetection.console st.
Proof.
  intros C.
  destruct (handleSubmit_incomplete net1 st C) as (E1 & n & T & V).
  destruct (handleSubmit_incomplete net2 st C) as (E2 & _).
  split; [congruence|].
  exists n. rewrite T. repeat split. exact V.
Qed.

(** With the sensitive attribute missing, a dead network goes unnoticed. *)
Lemma unfinished_form_never_reaches_the_network :
  BiasDetection.handleSubmit (answers (Breaks 12 failed_to_fetch)) bias_unfinished
  = BiasDetection.handleSubmit (answers (Responds 120 summary_200)) bias_unfinished.
Proof.
  apply (BiasDetection_incomplete_form_sends_nothing (rt := chrome)
           (answers (Breaks 12 failed_to_fetch))
           (answers (Responds 120 summary_200)) bias_unfinished).
  reflexivity.
Defined.

(** X14: on a complete form the page makes one request, a POST to
    /api/v1/bias/detect whose multipart body holds the attached file and the
    six texts exactly as typed, in the catalog's order; nothing else of the
    network matters to what the page does. *)
Theorem BiasDetection_submits_the_form_as_typed {rt : Runtime}
  (net1 net2 : Network) (st : BiasDetection.State) (csv : File) :
  BiasDetection.complete (BiasDetection.form st) = true ->
  BiasDetection.file (BiasDetection.form st) = Some csv ->
  let f := BiasDetection.form st in
  let request :=
    {| url := API_BASE_URL ++ "/api/v1/bias/detect"; method := "POST";
       headers := [];
       body :=
         Some [ ("file", FileEntry csv);
                ("model_name", StringEntry (BiasDetection.model_name f));
                ("model_version", StringEntry (BiasDetection.model_version f));
                ("target_variable", StringEntry (BiasDetection.target_variable f));
                ("sensitive_attribute",
                 StringEntry (BiasDetection.sensitive_attribute f));
                ("privileged_group", StringEntry (BiasDetection.privileged_group f));
                ("unprivileged_group",
                 StringEntry (BiasDetection.unprivileged_group f)) ] |} in
  net1 request = net2 request ->
  BiasDetection.handleSubmit net1 st = BiasDetection.handleSubmit net2 st.
Proof.
  intros C F. cbv zeta. intros E.
  rewrite !(handleSubmit_complete _ st csv C F).
  now rewrite (detect_one_answer net1 net2 csv _ _ _ _ _ _ E).
Qed.

(** Two networks that agree on the request of the sample form. *)
Lemma sample_form_is_sent_as_typed :
  BiasDetection.handleSubmit
    (fun request =>
       if String.eqb (url request) "http://localhost:8000/api/v1/bias/detect"
       then Responds 800 detect_422 else Breaks 5 failed_to_fetch)
    bias_ready
  = BiasDetection.handleSubmit (answers (Responds 800 detect_422)) bias_ready.
Proof.
  apply (BiasDetection_submits_the_form_as_typed (rt := chrome)
           (fun request =>
              if String.eqb (url request) "http://localhost:8000/api/v1/bias/detect"
              then Responds 800 detect_422 else Breaks 5 failed_to_fetch)
           (answers (Responds 800 detect_422)) bias_ready hiring_csv);
    reflexivity.
Defined.



Section RecordCount.

Context {rt : Runtime}.

Import BiasDetection.

Lemma completed_text_null :
  completed_text JNull = Fails (TypeError (null_read_message "record_count")).
Proof. reflexivity. Qed.

Lemma completed_text_count (payload : json) (count : json) (text : string) :
  get payload "record_count" = Done (Some count) ->
  count <> JNull ->
  ToString count = Done text ->
  completed_text payload = Done ("Analysis completed for " ++ text ++ " records").
Proof.
  intros G N T. unfold completed_text, nullish_or. rewrite G.
  destruct count; try congruence; now rewrite T.
Qed.

Lemma completed_text_default (payload : json) (count : value) :
  get payload "record_count" = Done count ->
  count = None \/ count = Some JNull ->
  completed_text payload
  = Done ("Analysis completed for " ++ number_toString (number_of_Z 0)
          ++ " records").
Proof.
  intros G [-> | ->]; unfold completed_text, nullish_or; now rewrite G.
Qed.

End RecordCount.

(** X16: what the page makes of a successful answer.  A payload with a
    record count announces "Analysis completed for <count> records"; one
    without it, or with [null] there, announces the count 0.  But when the
    server answers with the JSON value [null], reading the count throws:
    the page then shows "Analysis failed" for a call that succeeded, and the
    result it displays has been replaced by [null]. *)
Theorem BiasDetection_success_payloads {rt : Runtime} (net : Network)
  (st : BiasDetection.State) (csv : File) (payload : json) :
  BiasDetection.complete (BiasDetection.form st) = true ->
  BiasDetection.file (BiasDetection.form st) = Some csv ->
  detect net csv
    (BiasDetection.model_name (BiasDetection.form st))
    (BiasDetection.model_version (BiasDetection.form st))
    (BiasDetection.target_variable (BiasDetection.form st))
    (BiasDetection.sensitive_attribute (BiasDetection.form st))
    (BiasDetection.privileged_group (BiasDetection.form st))
    (BiasDetection.unprivileged_group (BiasDetection.form st))
  = Fulfilled payload ->
  let final := BiasDetection.handleSubmit net st in
  let announces n :=
    BiasDetection.toasts final = (BiasDetection.toasts st ++ [n])%list in
  BiasDetection.result final = payload
  /\ (forall count text,
        get payload "record_count" = Done (Some count) -> count <> JNull ->
        ToString count = Done text ->
        announces
          {| Notice.title := "Bias detection completed";
             Notice.description := "Analysis completed for " ++ text ++ " records";
             Notice.variant := None |})
  /\ (forall count,
        get payload "record_count" = Done count ->
        count = None \/ count = Some JNull ->
        announces
          {| Notice.title := "Bias detection completed";
             Notice.description :=
               "Analysis completed for " ++ number_toString (number_of_Z 0)
               ++ " records";
             Notice.variant := None |})
  /\ (payload = JNull ->
      announces
        {| Notice.title := "Analysis failed";
           Notice.description := "Failed to perform bias detection";
           Notice.variant := Some "destructive" |}).
Proof.
  intros C F D. cbv zeta. rewrite (handleSubmit_complete net st csv C F), D.
  cbv zeta. repeat apply conj.
  - now destruct (BiasDetection.completed_text payload).
  - intros count text G N T. now rewrite (completed_text_count _ _ _ G N T).
  - intros count G N. now rewrite (completed_text_default _ _ G N).
  - intros ->. now rewrite completed_text_null.
Qed.

(** The server answers 200 with the body [null]. *)
Lemma null_answer_is_reported_as_a_failure :
  BiasDetection.toasts
    (BiasDetection.handleSubmit
       (answers (Responds 800 (response_of 200 "OK" (Done JNull)))) bias_ready)
  = [{| Notice.title := "Analysis failed";
        Notice.description := "Failed to perform bias detection";
        Notice.variant := Some "destructive" |}].
Proof.
  destruct (BiasDetection_success_payloads (rt := chrome)
              (answers (Responds 800 (response_of 200 "OK" (Done JNull))))
              bias_ready hiring_csv JNull)
    as (_ & _ & _ & H); [reflexivity|reflexivity|reflexivity|].
  apply H. reflexivity.
Defined.

(** ** The compliance-report page *)

Section ComplianceReportFacts.

Context {rt : Runtime}.

Import ComplianceReport.

Lemma report_check_fields_outcome (fields : list string) (st : State) :
  (check_fields fields st = (true, st)
   /\ forallb (field_filled st) fields = true)
  \/ (exists n, check_fields fields st = (false, toast n st)
                /\ Notice.variant n = Some "destructive"
                /\ forallb (field_filled st) fields = false).
Proof.
  induction fields as [|b fields IH]; [now left|].
  cbn [check_fields forallb]. fold (field_filled st b).
  destruct (field_filled st b); cbn [negb andb].
  - exact IH.
  - right. eexists. repeat split.
Qed.

Lemma report_complete_fields (st : State) :
  complete (form st)
  = match file (form st) with Some _ => true | None => false end
    && forallb (field_filled st) requiredFields.
Proof.
  unfold complete, requiredFields, field_filled, text_field. cbn.
  now rewrite andb_true_r, !andb_assoc.
Qed.

Lemma report_validateForm_outcome (st : State) :
  (validateForm st = (true, st) /\ complete (form st) = true
   /\ exists csv, file (form st) = Some csv)
  \/ (exists n, validateForm st = (false, toast n st)
                /\ Notice.variant n = Some "destructive"
                /\ complete (form st) = false).
Proof.
  rewrite report_complete_fields. unfold validateForm.
  destruct (file (form st)) as [csv|].
  - destruct (report_check_fields_outcome requiredFields st)
      as [(C & F)|(n & C & V & F)].
    + left. rewrite C, F. repeat split. now exists csv.
    + right. exists n. now rewrite C, F.
  - right. eexists. repeat split.
Qed.

(** [handleGenerateReport] on a complete form, with the file named. *)
Lemma handleGenerateReport_complete (net : Network) (st : State) (csv : File) :
  complete (form st) = true ->
  file (form st) = Some csv ->
  handleGenerateReport net st
  = setLoading false
      (match
         generateReport net csv (model_name (form st)) (model_version (form st))
           (target_variable (form st)) (sensitive_attribute (form st))
           (privileged_group (form st)) (unprivileged_group (form st))
           (Some (role (form st)))
       with
       | Fulfilled pdf =>
           toast {| Notice.title := "Compliance report generated";
                    Notice.description := "Report is ready for download";
                    Notice.variant := None |}
             (setReportGenerated true
                (setComplianceStatus mockStatus
                   (setPdfBlob (Some pdf) (setLoading true st))))
       | Rejected error =>
           handleGenerateReport_catch error (setLoading true st)
       end).
Proof.
  intros C F. unfold handleGenerateReport.
  destruct (report_validateForm_outcome st) as [(V & _)|(n & _ & _ & C')];
    [|congruence].
  rewrite V, F. reflexivity.
Qed.

Lemma handleGenerateReport_incomplete (net : Network) (st : State) :
  complete (form st) = false ->
  exists n, handleGenerateReport net st = toast n st
            /\ Notice.variant n = Some "destructive".
Proof.
  intros C. unfold handleGenerateReport.
  destruct (report_validateForm_outcome st) as [(_ & C' & _)|(n & V & D & _)];
    [congruence|].
  rewrite V. now exists n.
Qed.

End ComplianceReportFacts.

(** X17: the report page asks for a report only on a complete form, with one
    POST to /api/v1/compliance/generate whose body is the file, the six
    texts as typed and then the role of the form, whatever it is: the
    ['executive'] default of the API is never used by the page, an empty
    role is sent empty.  On an incomplete form nothing is sent and one
    destructive toast is all that changes. *)
Theorem ComplianceReport_submits_the_form_as_typed {rt : Runtime}
  (net1 net2 : Network) (st : ComplianceReport.State) :
  (ComplianceReport.complete (ComplianceReport.form st) = false ->
   ComplianceReport.handleGenerateReport net1 st
   = ComplianceReport.handleGenerateReport net2 st
   /\ exists n,
        ComplianceReport.handleGenerateReport net1 st
        = ComplianceReport.toast n st
        /\ Notice.variant n = Some "destructive")
  /\ (forall csv,
        ComplianceReport.complete (ComplianceReport.form st) = true ->
        ComplianceReport.file (ComplianceReport.form st) = Some csv ->
        let f := ComplianceReport.form st in
        let request :=
          {| url := API_BASE_URL ++ "/api/v1/compliance/generate";
             method := "POST"; headers := [];
             body :=
               Some [ ("file", FileEntry csv);
                      ("model_name", StringEntry (ComplianceReport.model_name f));
                      ("model_version",
                       StringEntry (ComplianceReport.model_version f));
                      ("target_variable",
                       StringEntry (ComplianceReport.target_variable f));
                      ("sensitive_attribute",
                       StringEntry (ComplianceReport.sensitive_attribute f));
                      ("privileged_group",
                       StringEntry (ComplianceReport.privileged_group f));
                      ("unprivileged_group",
                       StringEntry (ComplianceReport.unprivileged_group f));
                      ("role", StringEntry (ComplianceReport.role f)) ] |} in
        net1 request = net2 request ->
        ComplianceReport.handleGenerateReport net1 st
        = ComplianceReport.handleGenerateReport net2 st).
Proof.
  split.
  - intros C.
    destruct (handleGenerateReport_incomplete net1 st C) as (n & E1 & V).
    destruct (handleGenerateReport_incomplete net2 st C) as (n2 & E2 & _).
    split; [|now exists n].
    rewrite E1, E2. revert E1 E2. unfold ComplianceReport.handleGenerateReport.
    destruct (report_validateForm_outcome st) as [(_ & C' & _)|(m & W & _)];
      [congruence|].
    rewrite W. now intros -> ->.
  - intros csv C F. cbv zeta. intros E.
    rewrite !(handleGenerateReport_complete _ st csv C F).
    now rewrite (generateReport_one_answer net1 net2 csv
                   (ComplianceReport.model_name (ComplianceReport.form st))
                   (ComplianceReport.model_version (ComplianceReport.form st))
                   (ComplianceReport.target_variable (ComplianceReport.form st))
                   (ComplianceReport.sensitive_attribute (ComplianceReport.form st))
                   (ComplianceReport.privileged_group (ComplianceReport.form st))
                   (ComplianceReport.unprivileged_group (ComplianceReport.form st))
                   (Some (ComplianceReport.role (ComplianceReport.form st))) E).
Qed.

(** The sample form, whose role is "auditor". *)
Lemma report_form_is_sent_as_typed :
  ComplianceReport.handleGenerateReport
    (fun request =>
       if String.eqb (url request)
            "http://localhost:8000/api/v1/compliance/generate"
       then Responds 800 pdf_200 else Breaks 5 failed_to_fetch)
    report_ready
  = ComplianceReport.handleGenerateReport (answers (Responds 800 pdf_200))
      report_ready.
Proof.
  destruct (ComplianceReport_submits_the_form_as_typed (rt := chrome)
              (fun request =>
                 if String.eqb (url request)
                      "http://localhost:8000/api/v1/compliance/generate"
                 then Responds 800 pdf_200 else Breaks 5 failed_to_fetch)
              (answers (Responds 800 pdf_200)) report_ready) as (_ & H).
  apply (H hiring_csv); reflexivity.
Defined.

(** X18: how a report request on a complete form ends.  When the network
    fails before any response, the page says "Failed to generate compliance
    report": the timeout and connectivity messages of the other pages never
    appear here, and neither does a deadline.  When the server answers with
    a failing status and an ApiError is built, its message is shown.  On
    success the document is kept, the page is marked as having a report, and
    the compliance status shown is the same fixed one whatever the server
    sent.  The loading flag always ends up off. *)
Theorem ComplianceReport_outcome {rt : Runtime} (net : Network)
  (st : ComplianceReport.State) (csv : File) :
  ComplianceReport.complete (ComplianceReport.form st) = true ->
  ComplianceReport.file (ComplianceReport.form st) = Some csv ->
  let f := ComplianceReport.form st in
  let request :=
    form_request "/api/v1/compliance/generate"
      (generateReport_formData csv (ComplianceReport.model_name f)
         (ComplianceReport.model_version f) (ComplianceReport.target_variable f)
         (ComplianceReport.sensitive_attribute f)
         (ComplianceReport.privileged_group f)
         (ComplianceReport.unprivileged_group f)
         (Some (ComplianceReport.role f))) in
  let final := ComplianceReport.handleGenerateReport net st in
  let failed text :=
    ComplianceReport.toasts final
    = (ComplianceReport.toasts st
       ++ [{| Notice.title := "Report generation failed";
              Notice.description := text;
              Notice.variant := Some "destructive" |}])%list
    /\ ComplianceReport.pdfBlob final = ComplianceReport.pdfBlob st
    /\ ComplianceReport.reportGenerated final = ComplianceReport.reportGenerated st
    /\ ComplianceReport.complianceStatus final
       = ComplianceReport.complianceStatus st in
  ComplianceReport.loading final = false
  /\ (forall t err, net request = Breaks t err ->
        failed "Failed to generate compliance report")
  /\ (forall t r e, net request = Responds t r -> Response.ok r = false ->
        (forall A, @report_failure rt A r = Rejected (ThrowApiError e)) ->
        failed (message e))
  /\ (forall t r pdf, net request = Responds t r -> Response.ok r = true ->
        Response.blob r = Done pdf ->
        ComplianceReport.pdfBlob final = Some pdf
        /\ ComplianceReport.reportGenerated final = true
        /\ ComplianceReport.complianceStatus final
           = {| ComplianceReport.gdpr := "compliant";
                ComplianceReport.eeoc := "non-compliant";
                ComplianceReport.eu_ai_act := "non-compliant";
                ComplianceReport.internal_policy := "compliant" |}
        /\ ComplianceReport.toasts final
           = (ComplianceReport.toasts st
              ++ [{| Notice.title := "Compliance report generated";
                     Notice.description := "Report is ready for download";
                     Notice.variant := None |}])%list).
Proof.
  intros C F. cbv zeta. rewrite (handleGenerateReport_complete net st csv C F).
  repeat apply conj.
  - now destruct (generateReport net csv _ _ _ _ _ _ _).
  - intros t err E. unfold generateReport. rewrite fetch_without_signal, E.
    cbn. repeat split.
  - intros t r e E Hok R.
    rewrite (generateReport_failing_status _ _ _ _ _ _ _ _ _ _ _ E Hok), R.
    cbn. repeat split.
  - intros t r pdf E Hok B. unfold generateReport.
    rewrite fetch_without_signal, E. cbn [await bind]. rewrite Hok, B.
    cbn. repeat split.
Qed.

(** With the server down the page shows its own generic text. *)
Lemma refused_report_shows_the_generic_text :
  ComplianceReport.toasts
    (ComplianceReport.handleGenerateReport
       (answers (Breaks 12 failed_to_fetch)) report_ready)
  = [{| Notice.title := "Report generation failed";
        Notice.description := "Failed to generate compliance report";
        Notice.variant := Some "destructive" |}].
Proof.
  destruct (ComplianceReport_outcome (rt := chrome)
              (answers (Breaks 12 failed_to_fetch)) report_ready hiring_csv)
    as (_ & H & _); [reflexivity|reflexivity|].
  destruct (H 12 failed_to_fetch) as (T & _); [reflexivity|exact T].
Defined.

Section Download.

Context {rt : Runtime}.

Import ComplianceReport.

Lemma open_urls_app (a b : list dom_event) :
  open_urls (a ++ b)%list = open_urls a + open_urls b.
Proof.
  induction a as [|ev a IH]; [reflexivity|].
  cbn [app open_urls]. destruct ev; lia.
Qed.

(** A rejected report call changes neither the document kept nor the flag
    that offers it. *)
Lemma rejected_report_keeps_the_document (net : Network) (st : State)
  (csv : File) (reason : thrown) :
  complete (form st) = true ->
  file (form st) = Some csv ->
  generateReport net csv (model_name (form st)) (model_version (form st))
    (target_variable (form st)) (sensitive_attribute (form st))
    (privileged_group (form st)) (unprivileged_group (form st))
    (Some (role (form st)))
  = Rejected reason ->
  pdfBlob (handleGenerateReport net st) = pdfBlob st
  /\ reportGenerated (handleGenerateReport net st) = reportGenerated st
  /\ dom (handleGenerateReport net st) = dom st.
Proof.
  intros C F R. rewrite (handleGenerateReport_complete net st csv C F), R.
  now destruct reason.
Qed.

End Download.

(** X19: a request that fails does not withdraw an earlier report.  After a
    report was generated, a later request on a complete form that is
    rejected for any reason leaves that document in place and still
    offered, and a download then delivers the old document under the name
    Ethical_AI_Compliance_Report.pdf. *)
Theorem ComplianceReport_failure_keeps_old_report {rt : Runtime}
  (net : Network) (st : ComplianceReport.State) (csv : File)
  (old : Blob) (reason : thrown) :
  ComplianceReport.complete (ComplianceReport.form st) = true ->
  ComplianceReport.file (ComplianceReport.form st) = Some csv ->
  ComplianceReport.pdfBlob st = Some old ->
  generateReport net csv
    (ComplianceReport.model_name (ComplianceReport.form st))
    (ComplianceReport.model_version (ComplianceReport.form st))
    (ComplianceReport.target_variable (ComplianceReport.form st))
    (ComplianceReport.sensitive_attribute (ComplianceReport.form st))
    (ComplianceReport.privileged_group (ComplianceReport.form st))
    (ComplianceReport.unprivileged_group (ComplianceReport.form st))
    (Some (ComplianceReport.role (ComplianceReport.form st)))
  = Rejected reason ->
  let after := ComplianceReport.handleGenerateReport net st in
  let downloaded := ComplianceReport.handleDownloadReport after in
  ComplianceReport.pdfBlob after = Some old
  /\ ComplianceReport.reportGenerated after = ComplianceReport.reportGenerated st
  /\ ComplianceReport.dom downloaded
     = (ComplianceReport.dom st
        ++ [ ComplianceReport.CreateObjectURL old;
             ComplianceReport.AppendAnchor "Ethical_AI_Compliance_Report.pdf" old;
             ComplianceReport.ClickAnchor "Ethical_AI_Compliance_Report.pdf" old;
             ComplianceReport.RemoveAnchor;
             ComplianceReport.RevokeObjectURL old ])%list.
Proof.
  intros C F P R. cbv zeta.
  destruct (rejected_report_keeps_the_document net st csv reason C F R)
    as (B & G & D).
  rewrite B, G, P. repeat split.
  unfold ComplianceReport.handleDownloadReport. rewrite B, P. cbn.
  now rewrite D.
Qed.

(** A report is generated, then the server goes away. *)
Lemma old_report_survives_a_refused_request :
  ComplianceReport.pdfBlob
    (ComplianceReport.handleGenerateReport (answers (Breaks 12 failed_to_fetch))
       (ComplianceReport.handleGenerateReport (answers (Responds 800 pdf_200))
          report_ready))
  = Some [Byte.x25; Byte.x50; Byte.x44; Byte.x46].
Proof.
  destruct (ComplianceReport_failure_keeps_old_report (rt := chrome)
              (answers (Breaks 12 failed_to_fetch))
              (ComplianceReport.handleGenerateReport
                 (answers (Responds 800 pdf_200)) report_ready)
              hiring_csv
              [Byte.x25; Byte.x50; Byte.x44; Byte.x46]
              (ThrowError failed_to_fetch))
    as (H & _); [reflexivity|reflexivity|reflexivity|reflexivity|exact H].
Defined.

(** X20: a download never changes the form, the document kept or the flags,
    and adds exactly one toast.  Without a document it touches nothing in the
    browser and says "Download failed"; with one it creates an object URL
    for that document, appends an anchor on it named
    Ethical_AI_Compliance_Report.pdf, clicks and removes the anchor, revokes
    the URL, in this order and nothing else, and says "Download started"; so
    however often the user downloads, no object URL is left open. *)
Theorem ComplianceReport_download {rt : Runtime} (st : ComplianceReport.State) :
  let after := ComplianceReport.handleDownloadReport st in
  ComplianceReport.form after = ComplianceReport.form st
  /\ ComplianceReport.pdfBlob after = ComplianceReport.pdfBlob st
  /\ ComplianceReport.reportGenerated after = ComplianceReport.reportGenerated st
  /\ ComplianceReport.loading after = ComplianceReport.loading st
  /\ (exists n, ComplianceReport.toasts after
                = (ComplianceReport.toasts st ++ [n])%list)
  /\ ComplianceReport.open_urls (ComplianceReport.dom after)
     = ComplianceReport.open_urls (ComplianceReport.dom st)
  /\ (ComplianceReport.pdfBlob st = None ->
      ComplianceReport.dom after = ComplianceReport.dom st
      /\ ComplianceReport.toasts after
         = (ComplianceReport.toasts st
            ++ [{| Notice.title := "Download failed";
                   Notice.description := "No report available for download";
                   Notice.variant := Some "destructive" |}])%list)
  /\ (forall n : nat,
        ComplianceReport.open_urls
          (ComplianceReport.dom
             (Nat.iter n ComplianceReport.handleDownloadReport st))
        = ComplianceReport.open_urls (ComplianceReport.dom st))
  /\ (forall pdf,
        ComplianceReport.pdfBlob st = Some pdf ->
        ComplianceReport.dom after
        = (ComplianceReport.dom st
           ++ [ ComplianceReport.CreateObjectURL pdf;
                ComplianceReport.AppendAnchor
                  "Ethical_AI_Compliance_Report.pdf" pdf;
                ComplianceReport.ClickAnchor
                  "Ethical_AI_Compliance_Report.pdf" pdf;
                ComplianceReport.RemoveAnchor;
                ComplianceReport.RevokeObjectURL pdf ])%list
        /\ ComplianceReport.toasts after
           = (ComplianceReport.toasts st
              ++ [{| Notice.title := "Download started";
                     Notice.description := "Ethical_AI_Compliance_Report.pdf";
                     Notice.variant := None |}])%list).
Proof.
  assert (One : forall s,
             ComplianceReport.open_urls
               (ComplianceReport.dom (ComplianceReport.handleDownloadReport s))
             = ComplianceReport.open_urls (ComplianceReport.dom s)).
  { intros s. unfold ComplianceReport.handleDownloadReport.
    destruct (ComplianceReport.pdfBlob s); cbn; [|reflexivity].
    rewrite open_urls_app. cbn. lia. }
  cbv zeta. repeat apply conj; try apply One.
  1-5: unfold ComplianceReport.handleDownloadReport;
       destruct (ComplianceReport.pdfBlob st) eqn:P; cbn; rewrite ?P;
       try reflexivity; now eexists.
  - intros P. unfold ComplianceReport.handleDownloadReport. rewrite P.
    now split.
  - induction n as [|n IH]; [reflexivity|].
    rewrite Nat.iter_succ, One. exact IH.
  - intros pdf P. unfold ComplianceReport.handleDownloadReport. rewrite P.
    now split.
Qed.

(** Downloading before any report exists. *)
Lemma download_without_report_fails :
  ComplianceReport.dom (ComplianceReport.handleDownloadReport report_ready) = []
  /\ ComplianceReport.toasts (ComplianceReport.handleDownloadReport report_ready)
     = [{| Notice.title := "Download failed";
           Notice.description := "No report available for download";
           Notice.variant := Some "destructive" |}].
Proof.
  destruct (ComplianceReport_download (rt := chrome) report_ready)
    as (_ & _ & _ & _ & _ & _ & H & _ & _).
  apply H. reflexivity.
Defined.

(** ** The upload widget *)

Section FileUploadFacts.

Import FileUpload.

Lemma handleFileChange_accepts (maxSize : Z) (file : File) (st : State) :
  acceptable maxSize file = true ->
  handleFileChange maxSize file st
  = toast {| Notice.title := "File uploaded successfully";
             Notice.description :=
               filename file ++ " ("
               ++ JsNumber.toFixed (size file) (1024 * 1024) 2 ++ "MB)";
             Notice.variant := None |}
      (onFileSelect file (setSelectedFile (Some file) st)).
Proof.
  unfold acceptable, handleFileChange. intros A.
  apply andb_prop in A. destruct A as [S N]. apply Z.leb_le in S.
  destruct (maxSize * 1024 * 1024 <? size file) eqn:L;
    [apply Z.ltb_lt in L; lia|].
  now rewrite N.
Qed.

Lemma handleFileChange_rejects (maxSize : Z) (file : File) (st : State) :
  acceptable maxSize file = false ->
  exists n, handleFileChange maxSize file st = toast n st
            /\ Notice.variant n = Some "destructive".
Proof.
  unfold acceptable, handleFileChange. intros A.
  destruct (maxSize * 1024 * 1024 <? size file) eqn:L; [now eexists|].
  apply Z.ltb_ge in L. apply Z.leb_le in L. rewrite L in A. cbn in A.
  rewrite A. now eexists.
Qed.

(** Every file handed to the page, and the file shown as selected, passed
    both tests. *)
Definition vetted (maxSize : Z) (st : State) : Prop :=
  Forall (fun f => acceptable maxSize f = true) (handed_over st)
  /\ (forall f, selectedFile st = Some f ->
        acceptable maxSize f = true /\ In f (handed_over st)).

Lemma handleFileChange_vetted (maxSize : Z) (file : File) (st : State) :
  vetted maxSize st -> vetted maxSize (handleFileChange maxSize file st).
Proof.
  intros [H S]. destruct (acceptable maxSize file) eqn:A.
  - rewrite (handleFileChange_accepts _ _ _ A). split; cbn.
    + apply Forall_app. split; [exact H|]. now constructor.
    + intros f [= <-]. split; [exact A|]. apply in_or_app. right. now left.
  - destruct (handleFileChange_rejects _ _ st A) as (n & -> & _). now split.
Qed.

Lemma act_vetted (maxSize : Z) (a : action) (st : State) :
  vetted maxSize st -> vetted maxSize (act maxSize st a).
Proof.
  intros V. destruct a as [files|files|type|]; cbn [act].
  - unfold handleInputChange. destruct files; [exact V|].
    now apply handleFileChange_vetted.
  - unfold handleDrop. destruct files.
    + destruct V as [H S]. now split.
    + apply handleFileChange_vetted. destruct V as [H S]. now split.
  - unfold handleDrag. destruct V as [H S].
    destruct (_ || _); [now split|]. destruct (String.eqb _ _); now split.
  - destruct V as [H S]. split; [exact H|]. intros f D. discriminate D.
Qed.

Lemma fold_vetted (maxSize : Z) (actions : list action) : forall st,
  vetted maxSize st -> vetted maxSize (fold_left (act maxSize) actions st).
Proof.
  induction actions as [|a actions IH]; intros st V; [exact V|].
  cbn [fold_left]. apply IH. now apply act_vetted.
Qed.

End FileUploadFacts.

(** X21: the upload widget takes a file exactly when it is no larger than
    the limit (a file of exactly the limit is taken, although the message
    says "less than") and its name ends in .csv in any letter case.  A file
    taken becomes the selection, is handed to the page once, and is
    announced with its size; a file refused changes nothing but for one
    destructive toast: "File too large" with the limit when it is over the
    limit, whatever its name, and "Invalid file type" with "Please upload a
    CSV file" when it is within the limit but wrongly named. *)
Theorem FileUpload_handleFileChange_spec (maxSize : Z) (file : File)
  (st : FileUpload.State) :
  let after := FileUpload.handleFileChange maxSize file st in
  (FileUpload.acceptable maxSize file = true ->
   FileUpload.selectedFile after = Some file
   /\ FileUpload.handed_over after = (FileUpload.handed_over st ++ [file])%list
   /\ FileUpload.toasts after
      = (FileUpload.toasts st
         ++ [{| Notice.title := "File uploaded successfully";
                Notice.description :=
                  filename file ++ " ("
                  ++ JsNumber.toFixed (FileUpload.size file) (1024 * 1024) 2
                  ++ "MB)";
                Notice.variant := None |}])%list)
  /\ (FileUpload.acceptable maxSize file = false ->
      FileUpload.selectedFile after = FileUpload.selectedFile st
      /\ FileUpload.handed_over after = FileUpload.handed_over st
      /\ exists n, FileUpload.toasts after = (FileUpload.toasts st ++ [n])%list
                   /\ Notice.variant n = Some "destructive")
  /\ ((maxSize * 1024 * 1024 <? FileUpload.size file) = true ->
      FileUpload.toasts after
      = (FileUpload.toasts st
         ++ [{| Notice.title := "File too large";
                Notice.description :=
                  "File size must be less than " ++ F64.toString maxSize ++ "MB";
                Notice.variant := Some "destructive" |}])%list)
  /\ (FileUpload.size file = maxSize * 1024 * 1024 ->
      JsString.endsWith (JsString.toLowerCase (filename file)) ".csv" = true ->
      FileUpload.selectedFile after = Some file)
  /\ ((maxSize * 1024 * 1024 <? FileUpload.size file) = false ->
      JsString.endsWith (JsString.toLowerCase (filename file)) ".csv" = false ->
      FileUpload.toasts after
      = (FileUpload.toasts st
         ++ [{| Notice.title := "Invalid file type";
                Notice.description := "Please upload a CSV file";
                Notice.variant := Some "destructive" |}])%list)
  /\ (FileUpload.acceptable maxSize file = true
      <-> (maxSize * 1024 * 1024 <? FileUpload.size file) = false
          /\ JsString.endsWith (JsString.toLowerCase (filename file)) ".csv"
             = true).
Proof.
  cbv zeta. repeat apply conj.
  - intros A. now rewrite (handleFileChange_accepts _ _ _ A).
  - intros A. destruct (handleFileChange_rejects _ _ st A) as (n & -> & V).
    repeat split. now exists n.
  - intros L. unfold FileUpload.handleFileChange. now rewrite L.
  - intros S N. rewrite handleFileChange_accepts; [reflexivity|].
    unfold FileUpload.acceptable. rewrite N, S, Z.leb_refl. reflexivity.
  - intros L N. unfold FileUpload.handleFileChange. now rewrite L, N.
  - unfold FileUpload.acceptable. intros A. apply andb_prop in A.
    destruct A as [S N]. split; [|exact N].
    apply Z.ltb_ge. now apply Z.leb_le.
  - unfold FileUpload.acceptable. intros [L N]. rewrite N.
    apply Z.ltb_ge in L. apply Z.leb_le in L. now rewrite L.
Qed.

(** Exactly one megabyte under a limit of one, in upper case. *)
Lemma one_megabyte_is_accepted :
  FileUpload.selectedFile
    (FileUpload.handleFileChange 1 (file_of_size "HIRING.CSV" 1048576)
       FileUpload.initial)
  = Some (file_of_size "HIRING.CSV" 1048576).
Proof.
  destruct (FileUpload_handleFileChange_spec 1
              (file_of_size "HIRING.CSV" 1048576) FileUpload.initial)
    as (_ & _ & _ & H & _).
  apply H.
  - vm_compute. reflexivity.
  - reflexivity.
Defined.

(** X22: whatever the user does with the widget (choosing, dropping,
    dragging, removing), every file it has handed to the page passed the
    size and name tests, and so did the file it shows as selected, which is
    one of those handed over. *)
Theorem FileUpload_hands_over_only_vetted_files (maxSize : Z)
  (actions : list FileUpload.action) :
  let st := FileUpload.session maxSize actions in
  Forall (fun f => FileUpload.acceptable maxSize f = true)
    (FileUpload.handed_over st)
  /\ (forall f, FileUpload.selectedFile st = Some f ->
        FileUpload.acceptable maxSize f = true
        /\ In f (FileUpload.handed_over st)).
Proof.
  cbv zeta. unfold FileUpload.session.
  apply (fold_vetted maxSize actions FileUpload.initial).
  split; [constructor|]. intros f D. discriminate D.
Qed.

(** X23: removing the file in the widget clears the widget only: nothing is
    handed to the page and no toast is raised, so a page that takes each
    file handed over into its form still holds the file just removed from
    the widget. *)
Theorem FileUpload_removeFile_is_local {rt : Runtime} (st : FileUpload.State)
  (page : BiasDetection.State) :
  let give (p : BiasDetection.State) (f : File) :=
    BiasDetection.handleFileSelect f p in
  FileUpload.selectedFile (FileUpload.removeFile st) = None
  /\ FileUpload.handed_over (FileUpload.removeFile st) = FileUpload.handed_over st
  /\ FileUpload.toasts (FileUpload.removeFile st) = FileUpload.toasts st
  /\ fold_left give (FileUpload.handed_over (FileUpload.removeFile st)) page
     = fold_left give (FileUpload.handed_over st) page
  /\ (forall f,
        BiasDetection.file
          (BiasDetection.form
             (fold_left give
                (FileUpload.handed_over
                   (FileUpload.removeFile
                      (FileUpload.onFileSelect f
                         (FileUpload.setSelectedFile (Some f) st))))
                page))
        = Some f).
Proof.
  cbv zeta. repeat split.
  intros f. cbn. rewrite fold_left_app. reflexivity.
Qed.
